(** * HayQC: tenant access guards, bale routes and the bale grade calculation

    A shallow embedding of
    - [backend/src/auth/guards.ts]  (requireAuth, requireRole, the four
      require*Access guards, requireSameCompanyUser, isSupervisor,
      canCreateBales),
    - [backend/src/routes/bales.ts] (GET /api/bales and POST /api/bales),
    - [webapp/src/types/qc.ts]      (calculateBaleGrade),
    together with the properties the design specification states about them. *)

From Stdlib Require Import QArith Ascii String Lqa.
From stdpp Require Import gmap strings list fin_maps sorting.

Local Open Scope string_scope.
Local Open Scope Z_scope.

(** ** JavaScript numbers

    [moisture] is a JS [number | null].  Every finite double is a rational,
    so a finite number is carried as a [Q]; the three non-finite doubles are
    constructors of their own.  The comparisons are those of IEEE 754: any
    comparison with [NaN] is false. *)

Module JS.

Inductive number : Type :=
  | Finite (q : Q)
  | PosInfinity
  | NegInfinity
  | NaN.

Definition Qltb (a b : Q) : bool := negb (Qle_bool b a).

(** [a <= b] *)
Definition le (a b : number) : bool :=
  match a, b with
  | NaN, _ | _, NaN => false
  | NegInfinity, _ => true
  | _, PosInfinity => true
  | Finite x, Finite y => Qle_bool x y
  | _, _ => false
  end.

(** [a < b] *)
Definition lt (a b : number) : bool :=
  match a, b with
  | NaN, _ | _, NaN => false
  | PosInfinity, _ => false
  | _, NegInfinity => false
  | Finite x, Finite y => Qltb x y
  | _, _ => true
  end.

(** [a >= b] and [a > b] *)
Definition ge (a b : number) : bool := le b a.
Definition gt (a b : number) : bool := lt b a.

Definition of_Z (z : Z) : number := Finite (inject_Z z).

End JS.

Coercion JS.of_Z : Z >-> JS.number.

(** ** webapp/src/types/qc.ts *)

Module BaleGrade.
Inductive t : Type := A | B | C | D | REJECT.
End BaleGrade.

(** The enums [Color] and [Wetness] are string enums and the parameters are
    typed [Color | string] and [Wetness | string]: at run time they are
    strings, and [Color.GREEN] is the string ['GREEN']. *)
Module Color.
Definition DARK_GREEN : string := "DARK_GREEN".
Definition GREEN : string := "GREEN".
Definition LIGHT_GREEN : string := "LIGHT_GREEN".
Definition BROWN : string := "BROWN".
End Color.

Module Wetness.
Definition DRY : string := "DRY".
Definition DAMP : string := "DAMP".
Definition WET : string := "WET".
End Wetness.

(** [===] and [!==] on strings *)
Definition strictEq (a b : string) : bool := bool_decide (a = b).
Infix "===" := strictEq (at level 70, no associativity).
Notation "a !== b" := (negb (strictEq a b)) (at level 70, no associativity).

(** [moisture !== null && p(moisture)] *)
Definition notNullAnd (moisture : option JS.number) (p : JS.number → bool) : bool :=
  match moisture with
  | None => false
  | Some m => p m
  end.

Definition calculateBaleGrade
    (moisture : option JS.number) (color wetness : string)
    (mold contamination : bool) : BaleGrade.t :=
  (* Reject conditions - immediate rejection *)
  if mold || contamination || (wetness === Wetness.WET) || (wetness === "WET")
  then BaleGrade.REJECT
  (* Grade A: Dark green or green color, moisture 10-14%, dry *)
  else if ((color === Color.DARK_GREEN) || (color === "DARK_GREEN")
           || (color === Color.GREEN) || (color === "GREEN"))
          && notNullAnd moisture (λ m, JS.ge m 10 && JS.le m 14)
          && ((wetness === Wetness.DRY) || (wetness === "DRY"))
  then BaleGrade.A
  (* Grade D: moisture > 30% but not wet (before checking C) *)
  else if notNullAnd moisture (λ m, JS.gt m 30)
  then BaleGrade.D
  (* Grade C: moisture > 25% *)
  else if notNullAnd moisture (λ m, JS.gt m 25)
  then BaleGrade.C
  (* Grade B: Light green or brown color OR moisture 14-25% OR damp *)
  else if (color === Color.LIGHT_GREEN) || (color === "LIGHT_GREEN")
          || (color === Color.BROWN) || (color === "BROWN")
          || notNullAnd moisture (λ m, JS.gt m 14 && JS.le m 25)
          || (wetness === Wetness.DAMP) || (wetness === "DAMP")
  then BaleGrade.B
  (* Default to Grade A if dark green/green and dry with no moisture reading *)
  else if ((color === Color.DARK_GREEN) || (color === "DARK_GREEN")
           || (color === Color.GREEN) || (color === "GREEN"))
          && ((wetness === Wetness.DRY) || (wetness === "DRY"))
  then BaleGrade.A
  else BaleGrade.B.

(** ** Exceptions as results

    The guards throw [HTTPException(status, {message})], the only error here
    with a [status] property.  Any other thrown error is [Error code], where
    [code] is its [code] property if it has one (Prisma's known request
    errors do: P2002 for a unique constraint, P2003 for a foreign key).
    Reading a property of [null] throws a [TypeError], which has none. *)

Inductive Result (T : Type) : Type :=
  | Ok (v : T)
  | HTTPException (status : Z) (message : string)
  | Error (code : option string).
Arguments Ok {T} v.
Arguments HTTPException {T} status message.
Arguments Error {T} code.

Abbreviation TypeError := (Error None).

(** Sequencing: a thrown exception skips the rest of the function body.
    [x ← r; k] is stdpp's notation for [mbind]. *)
#[global] Instance Result_bind : MBind Result := λ T U k r,
  match r with
  | Ok v => k v
  | HTTPException status message => HTTPException status message
  | Error code => Error code
  end.

(** [o.field] where [o] may be [null] *)
Definition deref {T : Type} (o : option T) : Result T :=
  match o with
  | Some v => Ok v
  | None => TypeError
  end.

(** ** backend/src/auth/jwt.ts: the verified principal *)

Module AuthPayload.
Record t : Type := mk { userId : string; companyId : string; role : string }.
End AuthPayload.

(** [c.get("auth")]: the payload the auth middleware stored, or [null] *)
Definition Context : Type := option AuthPayload.t.

(** ** The tables the guards and the bale routes read

    Rows carry the columns the modelled code reads or writes; the primary key
    [id] is the key of the map. *)

Module User.
Record t : Type := mk { companyId : string }.
End User.

Module PurchaseOrder.
Record t : Type := mk { companyId : string }.
End PurchaseOrder.

Module Shipment.
Record t : Type := mk { poId : string }.
End Shipment.

Module Container.
Record t : Type := mk { shipmentId : string }.
End Container.

(** The inspection columns of a bale, as [createBaleSchema] lists them after
    the four reference columns and [baleNumber]. *)
Module Inspection.
Record t : Type := mk {
    baleIdDisplay : string;
    weightKg : Q;
    moisturePct : option Q;
    color : string;
    stems : string;
    wetness : string;
    contamination : bool;
    mixedMaterial : bool;
    mold : bool;
    grade : string;
    decision : string;
    rejectReason : option string;
    photo1Url : option string;
    photo2Url : option string;
    notes : option string }.
End Inspection.

Module Bale.
Record t : Type := mk {
    poId : string;
    shipmentId : string;
    containerId : string;
    inspectorId : string;
    baleNumber : Z;
    inspection : Inspection.t }.
End Bale.

Module Db.
Record t : Type := mk {
    user : gmap string User.t;
    purchaseOrder : gmap string PurchaseOrder.t;
    shipment : gmap string Shipment.t;
    container : gmap string Container.t;
    bale : gmap string Bale.t;
    (* unique per pair (poId, userId) *)
    pOUserAssignment : gset (string * string) }.
End Db.

(** *** Prisma reads

    [findUnique] returns the row or [null]; a nested [include] attaches the
    parent row found through the foreign-key column. *)

Definition ShipmentWithPO : Type := Shipment.t * option PurchaseOrder.t.
Definition ContainerWithChain : Type := Container.t * option ShipmentWithPO.
Definition BaleWithChain : Type := Bale.t * option ContainerWithChain.

(** [prisma.shipment.findUnique({ where: { id }, include: { purchaseOrder } })] *)
Definition findShipment (db : Db.t) (id : string) : option ShipmentWithPO :=
  s ← Db.shipment db !! id;
  Some (s, Db.purchaseOrder db !! Shipment.poId s).

(** [prisma.container.findUnique] with [include: { shipment: { include: { purchaseOrder } } }] *)
Definition findContainer (db : Db.t) (id : string) : option ContainerWithChain :=
  c ← Db.container db !! id;
  Some (c, findShipment db (Container.shipmentId c)).

(** [prisma.bale.findUnique] with the container, shipment and purchase order included *)
Definition findBale (db : Db.t) (id : string) : option BaleWithChain :=
  b ← Db.bale db !! id;
  Some (b, findContainer db (Bale.containerId b)).

(** [prisma.pOUserAssignment.findUnique({ where: { poId_userId: { poId, userId } } })],
    as the truth value the guards test *)
Definition findAssignment (db : Db.t) (poId userId : string) : bool :=
  bool_decide ((poId, userId) ∈ Db.pOUserAssignment db).

(** ** backend/src/auth/guards.ts *)

Definition getAuth (c : Context) : option AuthPayload.t := c.

Definition requireAuth (c : Context) : Result AuthPayload.t :=
  match getAuth c with
  | None => HTTPException 401 "Authentication required"
  | Some auth => Ok auth
  end.

(** [allowedRoles.includes(role)] and [allowedRoles.join(sep)] *)
Definition includes (l : list string) (x : string) : bool := bool_decide (x ∈ l).

Fixpoint join (sep : string) (l : list string) : string :=
  match l with
  | [] => ""
  | [x] => x
  | x :: rest => x +:+ sep +:+ join sep rest
  end.

Definition requireRole (c : Context) (allowedRoles : list string) : Result AuthPayload.t :=
  auth ← requireAuth c;
  if negb (includes allowedRoles (AuthPayload.role auth))
  then HTTPException 403 ("Access denied. Required roles: " +:+ join ", " allowedRoles)
  else Ok auth.

Definition isCustomerOrSupplier (auth : AuthPayload.t) : bool :=
  (AuthPayload.role auth === "CUSTOMER") || (AuthPayload.role auth === "SUPPLIER").

Definition requirePOAccess (c : Context) (db : Db.t) (poId : string)
    : Result AuthPayload.t :=
  auth ← requireAuth c;
  match Db.purchaseOrder db !! poId with
  | None => HTTPException 404 "Purchase order not found"
  | Some po =>
    (* Company scoping - must be same company *)
    if PurchaseOrder.companyId po !== AuthPayload.companyId auth
    then HTTPException 404 "Purchase order not found"
    (* For CUSTOMER/SUPPLIER, check if assigned to this PO *)
    else if isCustomerOrSupplier auth then
      if negb (findAssignment db poId (AuthPayload.userId auth))
      then HTTPException 403 "You do not have access to this purchase order"
      else Ok auth
    else Ok auth
  end.

Definition requireShipmentAccess (c : Context) (db : Db.t) (shipmentId : string)
    : Result (AuthPayload.t * string) :=
  auth ← requireAuth c;
  match findShipment db shipmentId with
  | None => HTTPException 404 "Shipment not found"
  | Some (shipment, purchaseOrder) =>
    purchaseOrder ← deref purchaseOrder;
    (* Company scoping *)
    if PurchaseOrder.companyId purchaseOrder !== AuthPayload.companyId auth
    then HTTPException 404 "Shipment not found"
    (* For CUSTOMER/SUPPLIER, check PO assignment *)
    else if isCustomerOrSupplier auth then
      if negb (findAssignment db (Shipment.poId shipment) (AuthPayload.userId auth))
      then HTTPException 403 "You do not have access to this shipment"
      else Ok (auth, Shipment.poId shipment)
    else Ok (auth, Shipment.poId shipment)
  end.

(** The granted container, [{ shipmentId, poId }] *)
Module ContainerGrant.
Record t : Type := mk { shipmentId : string; poId : string }.
End ContainerGrant.

Definition requireContainerAccess (c : Context) (db : Db.t) (containerId : string)
    : Result (AuthPayload.t * ContainerGrant.t) :=
  auth ← requireAuth c;
  match findContainer db containerId with
  | None => HTTPException 404 "Container not found"
  | Some (container, shipment) =>
    '(shipment, purchaseOrder) ← deref shipment;
    purchaseOrder ← deref purchaseOrder;
    (* Company scoping *)
    if PurchaseOrder.companyId purchaseOrder !== AuthPayload.companyId auth
    then HTTPException 404 "Container not found"
    (* For CUSTOMER/SUPPLIER, check PO assignment *)
    else if isCustomerOrSupplier auth then
      if negb (findAssignment db (Shipment.poId shipment) (AuthPayload.userId auth))
      then HTTPException 403 "You do not have access to this container"
      else Ok (auth, ContainerGrant.mk (Container.shipmentId container)
                                       (Shipment.poId shipment))
    else Ok (auth, ContainerGrant.mk (Container.shipmentId container)
                                     (Shipment.poId shipment))
  end.

(** The granted bale, [{ containerId, shipmentId, poId }] *)
Module BaleGrant.
Record t : Type := mk { containerId : string; shipmentId : string; poId : string }.
End BaleGrant.

Definition requireBaleAccess (c : Context) (db : Db.t) (baleId : string)
    : Result (AuthPayload.t * BaleGrant.t) :=
  auth ← requireAuth c;
  match findBale db baleId with
  | None => HTTPException 404 "Bale not found"
  | Some (bale, container) =>
    '(_, shipment) ← deref container;
    '(_, purchaseOrder) ← deref shipment;
    purchaseOrder ← deref purchaseOrder;
    (* Company scoping *)
    if PurchaseOrder.companyId purchaseOrder !== AuthPayload.companyId auth
    then HTTPException 404 "Bale not found"
    (* For CUSTOMER/SUPPLIER, check PO assignment *)
    else if isCustomerOrSupplier auth then
      if negb (findAssignment db (Bale.poId bale) (AuthPayload.userId auth))
      then HTTPException 403 "You do not have access to this bale"
      else Ok (auth, BaleGrant.mk (Bale.containerId bale) (Bale.shipmentId bale)
                                  (Bale.poId bale))
    else Ok (auth, BaleGrant.mk (Bale.containerId bale) (Bale.shipmentId bale)
                                (Bale.poId bale))
  end.

Definition requireSameCompanyUser (c : Context) (db : Db.t) (targetUserId : string)
    : Result AuthPayload.t :=
  auth ← requireAuth c;
  match Db.user db !! targetUserId with
  | None => HTTPException 404 "User not found"
  | Some user =>
    if User.companyId user !== AuthPayload.companyId auth
    then HTTPException 404 "User not found"
    else Ok auth
  end.

Definition isSupervisor (auth : AuthPayload.t) : bool :=
  AuthPayload.role auth === "SUPERVISOR".

Definition canCreateBales (auth : AuthPayload.t) : bool :=
  (AuthPayload.role auth === "INSPECTOR") || (AuthPayload.role auth === "SUPERVISOR").

(** ** backend/src/routes/bales.ts *)

(** What a route handler answers: [c.json({ data }, status)],
    [c.json({ error: { message, code } }, status)], an [HTTPException] thrown
    on to the framework, or the 400 of [zValidator] for a body the schema
    refuses. *)
Inductive Response (T : Type) : Type :=
  | Json (status : Z) (data : T)
  | JsonError (status : Z) (message code : string)
  | Rethrown (status : Z) (message : string)
  | Invalid.
Arguments Json {T} status data.
Arguments JsonError {T} status message code.
Arguments Rethrown {T} status message.
Arguments Invalid {T}.

(** [try { body } catch (error) { if (error instanceof Error && "status" in
    error) throw error; onError(error.code) }] *)
Definition tryCatch {R : Type} (body : Result R) (rethrow : Z → string → R)
    (onError : option string → R) : R :=
  match body with
  | Ok response => response
  | HTTPException status message => rethrow status message
  | Error code => onError code
  end.

(** Truthiness of [c.req.query(name)]: [undefined] and [""] are falsy. *)
Definition truthy (s : option string) : bool :=
  match s with
  | None => false
  | Some s => negb (s === "")
  end.

(** [s || dflt] *)
Definition orElse (s : option string) (dflt : string) : string :=
  match s with
  | Some s => if s === "" then dflt else s
  | None => dflt
  end.

(** *** [parseInt(s, 10)]

    The query value is the UTF-8 text of the JavaScript string.  [parseInt]
    skips leading white space and line terminators, reads an optional sign
    and the longest run of decimal digits, and returns the double nearest to
    the integer they denote.  The result here is [Some n] when that double is
    the integer [n], and [None] when it is not an integer: [NaN] (no digit)
    or an infinity (a run beyond the largest double).  Every digit of the run
    counts, as in V8 and JavaScriptCore; ECMAScript would let an engine read
    the digits after the twentieth as zeros. *)

(** The one-byte white space and line terminators: TAB, LF, VT, FF, CR, SP *)
Definition isWhiteSpace (a : ascii) : bool :=
  let n := nat_of_ascii a in
  bool_decide (n = 32 ∨ (9 ≤ n ∧ n ≤ 13))%nat.

(** U+00A0 *)
Definition isWhiteSpace2 (a b : ascii) : bool :=
  bool_decide (nat_of_ascii a = 194 ∧ nat_of_ascii b = 160)%nat.

(** U+1680, U+2000..U+200A, U+2028, U+2029, U+202F, U+205F, U+3000, U+FEFF *)
Definition isWhiteSpace3 (a b c : ascii) : bool :=
  let x := nat_of_ascii a in
  let y := nat_of_ascii b in
  let z := nat_of_ascii c in
  bool_decide
    ((x = 225 ∧ y = 154 ∧ z = 128)
     ∨ (x = 226 ∧ y = 128 ∧ ((128 ≤ z ∧ z ≤ 138) ∨ z = 168 ∨ z = 169 ∨ z = 175))
     ∨ (x = 226 ∧ y = 129 ∧ z = 159)
     ∨ (x = 227 ∧ y = 128 ∧ z = 128)
     ∨ (x = 239 ∧ y = 187 ∧ z = 191))%nat.

Fixpoint trimStart (s : string) : string :=
  match s with
  | String a s1 =>
    if isWhiteSpace a then trimStart s1
    else
      match s1 with
      | String b s2 =>
        if isWhiteSpace2 a b then trimStart s2
        else
          match s2 with
          | String c s3 => if isWhiteSpace3 a b c then trimStart s3 else s
          | EmptyString => s
          end
      | EmptyString => s
      end
  | EmptyString => s
  end.

Definition digitValue (a : ascii) : option Z :=
  let n := Z.of_nat (nat_of_ascii a) in
  if bool_decide (48 ≤ n ∧ n ≤ 57) then Some (n - 48) else None.

Fixpoint leadingDigits (s : string) (acc : option Z) : option Z :=
  match s with
  | String a s' =>
    match digitValue a with
    | Some d => leadingDigits s' (Some (10 * default 0 acc + d))
    | None => acc
    end
  | EmptyString => acc
  end.

(** The double nearest to an integer, ties to the even significand: up to 53
    bits the integer itself; beyond, its 53 leading bits rounded, and no
    number at all from 2^1024 on (an infinity). *)
Definition toDouble (n : Z) : option Z :=
  let a := Z.abs n in
  let excess := Z.log2 a + 1 - 53 in
  if bool_decide (excess ≤ 0) then Some n
  else
    let q := Z.shiftr a excess in
    let r := a - Z.shiftl q excess in
    let half := Z.shiftl 1 (excess - 1) in
    let q' := if bool_decide (half < r) || (bool_decide (r = half) && Z.odd q)
              then q + 1 else q in
    let v := Z.shiftl q' excess in
    if bool_decide (v < 2 ^ 1024) then Some (Z.sgn n * v) else None.

Definition parseInt (s : string) : option Z :=
  match trimStart s with
  | String "-" s' => n ← leadingDigits s' None; toDouble (- n)
  | String "+" s' => n ← leadingDigits s' None; toDouble n
  | s' => n ← leadingDigits s' None; toDouble n
  end.

(** *** [prisma.bale.findMany] *)

(** The [where] object the list handler builds: an equality filter per
    column that was set, and the nested relation filter
    [container: { shipment: { purchaseOrder: { companyId } } }]. *)
Module BaleWhere.
Record t : Type := mk {
    containerId : option string;
    shipmentId : option string;
    poId : option string;
    inspectorId : option string;
    companyId : option string }.
End BaleWhere.

(** The company at the root of a bale's Container → Shipment → PurchaseOrder chain *)
Definition baleCompany (db : Db.t) (b : Bale.t) : option string :=
  c ← Db.container db !! Bale.containerId b;
  s ← Db.shipment db !! Container.shipmentId c;
  po ← Db.purchaseOrder db !! Shipment.poId s;
  Some (PurchaseOrder.companyId po).

Definition columnMatches (filter : option string) (value : string) : bool :=
  match filter with
  | None => true
  | Some v => value === v
  end.

Definition whereMatches (db : Db.t) (w : BaleWhere.t) (b : Bale.t) : bool :=
  columnMatches (BaleWhere.containerId w) (Bale.containerId b)
  && columnMatches (BaleWhere.shipmentId w) (Bale.shipmentId b)
  && columnMatches (BaleWhere.poId w) (Bale.poId b)
  && columnMatches (BaleWhere.inspectorId w) (Bale.inspectorId b)
  && match BaleWhere.companyId w with
     | None => true
     | Some company =>
       match baleCompany db b with
       | Some c => c === company
       | None => false
       end
     end.

(** [orderBy: { baleNumber: "asc" }] *)
Definition byBaleNumber (x y : string * Bale.t) : Prop :=
  Bale.baleNumber x.2 ≤ Bale.baleNumber y.2.

#[global] Instance byBaleNumber_dec x y : Decision (byBaleNumber x y).
Proof. unfold byBaleNumber. apply _. Defined.

(** The order in which one query returns the rows: by ascending bale number,
    and among rows of equal number by the rank [tie] that the database gives
    to each row id on that occasion. *)
Definition rowOrder (tie : string → Z) (x y : string * Bale.t) : Prop :=
  Bale.baleNumber x.2 < Bale.baleNumber y.2
  ∨ (Bale.baleNumber x.2 = Bale.baleNumber y.2 ∧ tie x.1 ≤ tie y.1).

#[global] Instance rowOrder_dec tie x y : Decision (rowOrder tie x y).
Proof. unfold rowOrder. apply _. Defined.

(** [take: n]: the first [n] rows, the last [-n] rows for a negative [n]. *)
Definition prismaTake {T : Type} (n : Z) (rows : list T) : list T :=
  if bool_decide (0 ≤ n) then take (Z.to_nat n) rows
  else drop (length rows - Z.to_nat (- n)) rows.

(** *** GET /api/bales *)

Module BaleQuery.
Record t : Type := mk {
    containerId : option string;
    shipmentId : option string;
    poId : option string;
    inspectorId : option string;
    limit : option string }.
End BaleQuery.

(** [if (x) where.x = x] *)
Definition whenSet (s : option string) : option string :=
  if truthy s then s else None.

(** The [where] object of the list handler *)
Definition balesWhere (auth : AuthPayload.t) (q : BaleQuery.t) : BaleWhere.t :=
  let containerId := BaleQuery.containerId q in
  let shipmentId := BaleQuery.shipmentId q in
  let poId := BaleQuery.poId q in
  let inspectorId := BaleQuery.inspectorId q in
  BaleWhere.mk (whenSet containerId) (whenSet shipmentId) (whenSet poId)
    (whenSet inspectorId)
    (* If no filter provided, scope to user's company via
       container->shipment->PO chain *)
    (if negb (truthy containerId) && negb (truthy shipmentId)
        && negb (truthy poId)
     then Some (AuthPayload.companyId auth) else None).

Section FindMany.

(** Prisma and the database are not among the sources.  Two things about
    them are parameters: which integers Prisma accepts as [take] (it refuses
    one that is out of its range with a validation error), and the order in
    which the database returns rows of equal bale number, which [orderBy]
    leaves open and which may differ from one query to the next. *)
Variable takeFits : Z → bool.
Variable tie : string → Z.

(** [findMany({ where, take, orderBy })]; a [take] that is not an integer, or
    one that Prisma does not accept, is refused with a validation error,
    which carries no [code]. *)
Definition findManyBales (db : Db.t) (w : BaleWhere.t) (limit : option Z)
    : Result (list (string * Bale.t)) :=
  match limit with
  | None => Error None
  | Some n =>
    if takeFits n
    then Ok (prismaTake n
               (merge_sort (rowOrder tie)
                  (filter (λ row, whereMatches db w row.2) (map_to_list (Db.bale db)))))
    else Error None
  end.

Definition listBales (c : Context) (db : Db.t) (q : BaleQuery.t)
    : Response (list (string * Bale.t)) :=
  tryCatch
    (auth ← requireAuth c;
     let containerId := BaleQuery.containerId q in
     let limit := parseInt (orElse (BaleQuery.limit q) "100") in
     (* If containerId provided, validate access *)
     _ ← (if truthy containerId
          then _ ← requireContainerAccess c db (default "" containerId); Ok ()
          else Ok ());
     bales ← findManyBales db (balesWhere auth q) limit;
     Ok (Json 200 bales))
    Rethrown
    (λ _, JsonError 500 "Failed to fetch bales" "FETCH_ERROR").

End FindMany.

(** *** POST /api/bales *)

(** A request body whose members have the JSON types [createBaleSchema]
    names; an optional member that is absent is [None]. *)
Module CreateBaleBody.
Record t : Type := mk {
    poId : string;
    shipmentId : string;
    containerId : string;
    inspectorId : string;
    baleNumber : Q;
    baleIdDisplay : string;
    weightKg : Q;
    moisturePct : option Q;
    color : string;
    stems : string;
    wetness : string;
    contamination : option bool;
    mixedMaterial : option bool;
    mold : option bool;
    grade : string;
    decision : string;
    rejectReason : option string;
    photo1Url : option string;
    photo2Url : option string;
    notes : option string }.
End CreateBaleBody.

(** [z.string().min(1)] *)
Definition min1 (s : string) : bool := negb (s === "").

(** [z.number().int()]: the integer a JSON number denotes, if it is one *)
Definition asInt (q : Q) : option Z :=
  if bool_decide (Qden (Qred q) = 1%positive) then Some (Qnum (Qred q)) else None.

(** [createBaleSchema]: the parsed [data], with the defaults filled in, or
    [None] when a member is refused. *)
Definition createBaleSchema (body : CreateBaleBody.t) : option Bale.t :=
  baleNumber ← asInt (CreateBaleBody.baleNumber body);
  if bool_decide (0 < baleNumber)
     && min1 (CreateBaleBody.baleIdDisplay body)
     && JS.Qltb 0 (CreateBaleBody.weightKg body)
     && from_option (λ m, Qle_bool 0 m && Qle_bool m 100) true
          (CreateBaleBody.moisturePct body)
     && min1 (CreateBaleBody.color body)
     && min1 (CreateBaleBody.stems body)
     && min1 (CreateBaleBody.wetness body)
     && min1 (CreateBaleBody.grade body)
     && includes ["ACCEPT"; "REJECT"] (CreateBaleBody.decision body)
  then
    Some (Bale.mk
      (CreateBaleBody.poId body)
      (CreateBaleBody.shipmentId body)
      (CreateBaleBody.containerId body)
      (CreateBaleBody.inspectorId body)
      baleNumber
      (Inspection.mk
        (CreateBaleBody.baleIdDisplay body)
        (CreateBaleBody.weightKg body)
        (CreateBaleBody.moisturePct body)
        (CreateBaleBody.color body)
        (CreateBaleBody.stems body)
        (CreateBaleBody.wetness body)
        (default false (CreateBaleBody.contamination body))
        (default false (CreateBaleBody.mixedMaterial body))
        (default false (CreateBaleBody.mold body))
        (CreateBaleBody.grade body)
        (CreateBaleBody.decision body)
        (CreateBaleBody.rejectReason body)
        (CreateBaleBody.photo1Url body)
        (CreateBaleBody.photo2Url body)
        (CreateBaleBody.notes body)))
  else None.

Section CreateBale.

  (** The Prisma schema is not among the sources.  What the database itself
      checks on an insert into the bale table is a parameter: the code of the
      known request error it raises for the row, if any (P2002 for a unique
      constraint, P2003 for a foreign key).  So is the id it generates. *)
Variable constraintError : Db.t → Bale.t → option string.
Variable newId : Db.t → string.

  (** [prisma.bale.create({ data })] *)
Definition baleCreate (db : Db.t) (data : Bale.t) : Result (string * Db.t) :=
    match constraintError db data with
    | Some code => Error (Some code)
    | None =>
      let id := newId db in
      Ok (id, Db.mk (Db.user db) (Db.purchaseOrder db) (Db.shipment db)
                    (Db.container db) (<[id := data]> (Db.bale db))
                    (Db.pOUserAssignment db))
    end.

Definition postBale (c : Context) (db : Db.t) (body : CreateBaleBody.t)
      : Response (string * Bale.t) * Db.t :=
    match createBaleSchema body with
    | None => (Invalid, db)
    | Some data =>
      tryCatch
        (auth ← requireAuth c;
         (* Only INSPECTOR and SUPERVISOR can create bales *)
         if negb (canCreateBales auth)
         then Ok (JsonError 403
                    "Access denied. Only inspectors and supervisors can create bales."
                    "FORBIDDEN", db)
         else
           (* Validate container access *)
           _ ← requireContainerAccess c db (Bale.containerId data);
           '(id, db') ← baleCreate db data;
           Ok (Json 201 (id, data), db'))
        (λ status message, (Rethrown status message, db))
        (λ code,
           if bool_decide (code = Some "P2002")
           then (JsonError 409 "Bale number already exists for this container"
                   "DUPLICATE_BALE", db)
           else (JsonError 500 "Failed to create bale" "CREATE_ERROR", db))
    end.

End CreateBale.

(** ** The access decision per entity type

    The source has one guard per entity type; the specification names their
    common shape [resolveAccess(principal, entityType, entityId)]. *)

Inductive EntityType : Type := PURCHASE_ORDER | SHIPMENT | CONTAINER | BALE.

(** What a guard returns when it allows, per entity type *)
Inductive Grant : Type :=
  | GrantPO (auth : AuthPayload.t)
  | GrantShipment (auth : AuthPayload.t) (poId : string)
  | GrantContainer (auth : AuthPayload.t) (container : ContainerGrant.t)
  | GrantBale (auth : AuthPayload.t) (bale : BaleGrant.t).

#[global] Instance Result_fmap : FMap Result := λ T U f r, v ← r; Ok (f v).

Definition resolveAccess (c : Context) (db : Db.t) (e : EntityType) (id : string)
    : Result Grant :=
  match e with
  | PURCHASE_ORDER => GrantPO <$> requirePOAccess c db id
  | SHIPMENT => (λ r, GrantShipment r.1 r.2) <$> requireShipmentAccess c db id
  | CONTAINER => (λ r, GrantContainer r.1 r.2) <$> requireContainerAccess c db id
  | BALE => (λ r, GrantBale r.1 r.2) <$> requireBaleAccess c db id
  end.

(** The message of the 404 and of the 403 of each guard *)
Definition notFoundMessage (e : EntityType) : string :=
  match e with
  | PURCHASE_ORDER => "Purchase order not found"
  | SHIPMENT => "Shipment not found"
  | CONTAINER => "Container not found"
  | BALE => "Bale not found"
  end.

Definition forbiddenMessage (e : EntityType) : string :=
  match e with
  | PURCHASE_ORDER => "You do not have access to this purchase order"
  | SHIPMENT => "You do not have access to this shipment"
  | CONTAINER => "You do not have access to this container"
  | BALE => "You do not have access to this bale"
  end.

(** ** Vocabulary of the specification *)

(** Whether the entity has a row at all *)
Definition entityExists (db : Db.t) (e : EntityType) (id : string) : bool :=
  match e with
  | PURCHASE_ORDER => bool_decide (is_Some (Db.purchaseOrder db !! id))
  | SHIPMENT => bool_decide (is_Some (Db.shipment db !! id))
  | CONTAINER => bool_decide (is_Some (Db.container db !! id))
  | BALE => bool_decide (is_Some (Db.bale db !! id))
  end.

(** The purchase order a shipment, and a container, hangs under *)
Definition shipmentPO (db : Db.t) (shipmentId : string) : option string :=
  s ← Db.shipment db !! shipmentId; Some (Shipment.poId s).

Definition containerPO (db : Db.t) (containerId : string) : option string :=
  c ← Db.container db !! containerId; shipmentPO db (Container.shipmentId c).

(** The purchase order at the top of the entity's live chain *)
Definition chainPO (db : Db.t) (e : EntityType) (id : string) : option string :=
  match e with
  | PURCHASE_ORDER => _ ← Db.purchaseOrder db !! id; Some id
  | SHIPMENT => shipmentPO db id
  | CONTAINER => containerPO db id
  | BALE => b ← Db.bale db !! id; containerPO db (Bale.containerId b)
  end.

(** The entity's root company: the company of that purchase order *)
Definition rootCompany (db : Db.t) (e : EntityType) (id : string) : option string :=
  poId ← chainPO db e id;
  po ← Db.purchaseOrder db !! poId;
  Some (PurchaseOrder.companyId po).

(** The entity's [poId] as its ownership record carries it: the id itself for
    a purchase order, the [poId] column for a shipment and for a bale, the
    shipment's [poId] for a container (which has no such column). *)
Definition entityPoId (db : Db.t) (e : EntityType) (id : string) : option string :=
  match e with
  | BALE => b ← Db.bale db !! id; Some (Bale.poId b)
  | _ => chainPO db e id
  end.

(** The same tables with another set of assignments *)
Definition withAssignments (a : gset (string * string)) (db : Db.t) : Db.t :=
  Db.mk (Db.user db) (Db.purchaseOrder db) (Db.shipment db) (Db.container db)
        (Db.bale db) a.

(** A bale matches the column filters of a list query *)
Definition matchesFilter (q : BaleQuery.t) (b : Bale.t) : bool :=
  columnMatches (whenSet (BaleQuery.containerId q)) (Bale.containerId b)
  && columnMatches (whenSet (BaleQuery.shipmentId q)) (Bale.shipmentId b)
  && columnMatches (whenSet (BaleQuery.poId q)) (Bale.poId b)
  && columnMatches (whenSet (BaleQuery.inspectorId q)) (Bale.inspectorId b).

(** The answer of the list route when nothing but the column filters, the
    limit and the database's order of equal bale numbers decides: the
    matching bales by ascending number, cut to the limit; the 500 when the
    limit is not an integer that Prisma accepts as [take]. *)
Definition unscopedList (takeFits : Z → bool) (tie : string → Z)
    (db : Db.t) (q : BaleQuery.t) : Response (list (string * Bale.t)) :=
  match parseInt (orElse (BaleQuery.limit q) "100") with
  | None => JsonError 500 "Failed to fetch bales" "FETCH_ERROR"
  | Some n =>
    if takeFits n
    then Json 200 (prismaTake n
                     (merge_sort (rowOrder tie)
                        (filter (λ row, matchesFilter q row.2)
                           (map_to_list (Db.bale db)))))
    else JsonError 500 "Failed to fetch bales" "FETCH_ERROR"
  end.

Definition knownRoles : list string :=
  ["SUPERVISOR"; "INSPECTOR"; "CUSTOMER"; "SUPPLIER"].

(** ** A small database

    Two tenants.  Company acme owns the purchase orders po1 and po2, globex
    owns po9; each has one shipment with one container.  Bale b1 is filed
    consistently under k1/s1/po1.  Bale b2 lies in container k1 as well, but
    its stored [shipmentId] and [poId] name s2 and po2.  Customer cust1 is
    assigned to po2 only, cust2 to po1 only. *)

Module Fixture.

Definition inspection : Inspection.t :=
    Inspection.mk "B-001" 25 (Some 12%Q) "GREEN" "LOW" "DRY" false false false
      "A" "ACCEPT" None None None None.

Definition db : Db.t := Db.mk
    {[ "insp1" := User.mk "acme"; "cust1" := User.mk "acme";
       "cust2" := User.mk "acme"; "insp9" := User.mk "globex" ]}
    {[ "po1" := PurchaseOrder.mk "acme"; "po2" := PurchaseOrder.mk "acme";
       "po9" := PurchaseOrder.mk "globex" ]}
    {[ "s1" := Shipment.mk "po1"; "s2" := Shipment.mk "po2";
       "s9" := Shipment.mk "po9" ]}
    {[ "k1" := Container.mk "s1"; "k2" := Container.mk "s2";
       "k9" := Container.mk "s9" ]}
    {[ "b1" := Bale.mk "po1" "s1" "k1" "insp1" 1 inspection;
       "b2" := Bale.mk "po2" "s2" "k1" "insp1" 2 inspection;
       "b9" := Bale.mk "po9" "s9" "k9" "insp9" 1 inspection ]}
    {[ ("po2", "cust1"); ("po1", "cust2") ]}.

Definition inspector : AuthPayload.t := AuthPayload.mk "insp1" "acme" "INSPECTOR".
Definition customer1 : AuthPayload.t := AuthPayload.mk "cust1" "acme" "CUSTOMER".
Definition customer2 : AuthPayload.t := AuthPayload.mk "cust2" "acme" "CUSTOMER".
Definition outsider : AuthPayload.t := AuthPayload.mk "insp1" "globex" "INSPECTOR".
Definition auditor : AuthPayload.t := AuthPayload.mk "aud1" "acme" "AUDITOR".

  (** The strictest schema the route suggests: every reference column of a
      bale is a foreign key (P2003), and the bale number is unique within its
      container (P2002, the error the route reports as DUPLICATE_BALE). *)
Definition strictSchema (db : Db.t) (row : Bale.t) : option string :=
    if negb (bool_decide (is_Some (Db.purchaseOrder db !! Bale.poId row))
             && bool_decide (is_Some (Db.shipment db !! Bale.shipmentId row))
             && bool_decide (is_Some (Db.container db !! Bale.containerId row))
             && bool_decide (is_Some (Db.user db !! Bale.inspectorId row)))
    then Some "P2003"
    else if bool_decide (Exists
              (λ r, Bale.containerId r.2 = Bale.containerId row
                    ∧ Bale.baleNumber r.2 = Bale.baleNumber row)
              (map_to_list (Db.bale db)))
    then Some "P2002"
    else None.

Definition freshId (db : Db.t) : string := "b-new".

(** A Prisma that takes a 64-bit signed [take], and a database that ranks
    all rows of equal bale number alike. *)
Definition int64 (n : Z) : bool := bool_decide (- 2 ^ 63 ≤ n ∧ n < 2 ^ 63).
Definition sameRank (id : string) : Z := 0.

(** Two bales of one container with the same number, and the two ways to
    rank them. *)
Definition twins : Db.t := Db.mk
    {[ "insp1" := User.mk "acme" ]}
    {[ "po1" := PurchaseOrder.mk "acme" ]}
    {[ "s1" := Shipment.mk "po1" ]}
    {[ "k1" := Container.mk "s1" ]}
    {[ "a7" := Bale.mk "po1" "s1" "k1" "insp1" 1 inspection;
       "b1" := Bale.mk "po1" "s1" "k1" "insp1" 1 inspection ]}
    ∅.
Definition a7First (id : string) : Z := if id === "a7" then 0 else 1.
Definition b1First (id : string) : Z := if id === "b1" then 0 else 1.

  (** A bale for container k1 (under s1 and po1) whose body names the
      shipment s9 and the purchase order po9 of the other tenant. *)
Definition mismatchedBody : CreateBaleBody.t :=
    CreateBaleBody.mk "po9" "s9" "k1" "insp1" 3 "B-003" 25 (Some 12%Q)
      "GREEN" "LOW" "DRY" None None None "A" "ACCEPT" None None None None.

End Fixture.

(** ** More of backend/src/routes/bales.ts *)

(** *** GET /api/bales/:id *)

Definition getBale (c : Context) (db : Db.t) (id : string)
    : Response (string * BaleWithChain) :=
  tryCatch
    (_ ← requireBaleAccess c db id;
     match findBale db id with
     | None => Ok (JsonError 404 "Bale not found" "NOT_FOUND")
     | Some bale => Ok (Json 200 (id, bale))
     end)
    Rethrown
    (λ _, JsonError 500 "Failed to fetch bale" "FETCH_ERROR").

(** *** PUT /api/bales/:id *)

(** A request body whose members have the JSON types [updateBaleSchema]
    names; every member is optional. *)
Module UpdateBaleBody.
Record t : Type := mk {
  weightKg : option Q;
  moisturePct : option Q;
  color : option string;
  stems : option string;
  wetness : option string;
  contamination : option bool;
  mixedMaterial : option bool;
  mold : option bool;
  grade : option string;
  decision : option string;
  rejectReason : option string;
  photo1Url : option string;
  photo2Url : option string;
  notes : option string;
  syncStatus : option string }.
End UpdateBaleBody.

(** A member that is absent passes its check. *)
Definition optional {T : Type} (check : T → bool) (v : option T) : bool :=
  from_option check true v.

(** [updateBaleSchema]: whether the body is accepted.  Nothing is defaulted,
    so the parsed data is the body. *)
Definition updateBaleSchema (body : UpdateBaleBody.t) : bool :=
  optional (JS.Qltb 0) (UpdateBaleBody.weightKg body)
  && optional (λ m, Qle_bool 0 m && Qle_bool m 100) (UpdateBaleBody.moisturePct body)
  && optional (includes ["ACCEPT"; "REJECT"]) (UpdateBaleBody.decision body)
  && optional (includes ["PENDING"; "SYNCED"; "FAILED"]) (UpdateBaleBody.syncStatus body).

(** The columns [update({ data })] writes: a member that is present replaces
    the column, an absent one leaves it.  (The [syncStatus] column is not
    among the columns the rows here carry.) *)
Definition applyUpdate (data : UpdateBaleBody.t) (b : Bale.t) : Bale.t :=
  let i := Bale.inspection b in
  Bale.mk (Bale.poId b) (Bale.shipmentId b) (Bale.containerId b)
    (Bale.inspectorId b) (Bale.baleNumber b)
    (Inspection.mk
      (Inspection.baleIdDisplay i)
      (default (Inspection.weightKg i) (UpdateBaleBody.weightKg data))
      (from_option Some (Inspection.moisturePct i) (UpdateBaleBody.moisturePct data))
      (default (Inspection.color i) (UpdateBaleBody.color data))
      (default (Inspection.stems i) (UpdateBaleBody.stems data))
      (default (Inspection.wetness i) (UpdateBaleBody.wetness data))
      (default (Inspection.contamination i) (UpdateBaleBody.contamination data))
      (default (Inspection.mixedMaterial i) (UpdateBaleBody.mixedMaterial data))
      (default (Inspection.mold i) (UpdateBaleBody.mold data))
      (default (Inspection.grade i) (UpdateBaleBody.grade data))
      (default (Inspection.decision i) (UpdateBaleBody.decision data))
      (from_option Some (Inspection.rejectReason i) (UpdateBaleBody.rejectReason data))
      (from_option Some (Inspection.photo1Url i) (UpdateBaleBody.photo1Url data))
      (from_option Some (Inspection.photo2Url i) (UpdateBaleBody.photo2Url data))
      (from_option Some (Inspection.notes i) (UpdateBaleBody.notes data))).

(** The tables with another bale table *)
Definition withBales (bales : gmap string Bale.t) (db : Db.t) : Db.t :=
  Db.mk (Db.user db) (Db.purchaseOrder db) (Db.shipment db) (Db.container db)
        bales (Db.pOUserAssignment db).

(** What [c.body(null, 204)] or a failure answers *)
Inductive DeleteResponse : Type :=
  | NoContent
  | Failed (r : Response Empty_set).

Section BaleWrites.

(** As for the insert, what the database itself checks on an update and on a
    delete of a bale row that exists is a parameter: the code of the error it
    raises, if any. *)
Variable updateError : Db.t → string → UpdateBaleBody.t → option string.
Variable deleteError : Db.t → string → option string.

(** [prisma.bale.update({ where: { id }, data })]; P2025 when no row has the id *)
Definition baleUpdate (db : Db.t) (id : string) (data : UpdateBaleBody.t)
    : Result (Bale.t * Db.t) :=
  match Db.bale db !! id with
  | None => Error (Some "P2025")
  | Some b =>
    match updateError db id data with
    | Some code => Error (Some code)
    | None =>
      let b' := applyUpdate data b in
      Ok (b', withBales (<[id := b']> (Db.bale db)) db)
    end
  end.

Definition putBale (c : Context) (db : Db.t) (id : string) (body : UpdateBaleBody.t)
    : Response (string * Bale.t) * Db.t :=
  if negb (updateBaleSchema body) then (Invalid, db)
  else
    tryCatch
      ((* Only SUPERVISOR can update bales *)
       _ ← requireRole c ["SUPERVISOR"];
       (* Validate bale access *)
       _ ← requireBaleAccess c db id;
       '(bale, db') ← baleUpdate db id body;
       Ok (Json 200 (id, bale), db'))
      (λ status message, (Rethrown status message, db))
      (λ code,
         if bool_decide (code = Some "P2025")
         then (JsonError 404 "Bale not found" "NOT_FOUND", db)
         else (JsonError 500 "Failed to update bale" "UPDATE_ERROR", db)).

(** *** DELETE /api/bales/:id *)

(** [prisma.bale.delete({ where: { id } })]; P2025 when no row has the id *)
Definition baleDelete (db : Db.t) (id : string) : Result Db.t :=
  match Db.bale db !! id with
  | None => Error (Some "P2025")
  | Some _ =>
    match deleteError db id with
    | Some code => Error (Some code)
    | None => Ok (withBales (delete id (Db.bale db)) db)
    end
  end.

Definition deleteBale (c : Context) (db : Db.t) (id : string)
    : DeleteResponse * Db.t :=
  tryCatch
    ((* Only SUPERVISOR can delete bales *)
     _ ← requireRole c ["SUPERVISOR"];
     (* Validate bale access *)
     _ ← requireBaleAccess c db id;
     db' ← baleDelete db id;
     Ok (NoContent, db'))
    (λ status message, (Failed (Rethrown status message), db))
    (λ code,
       if bool_decide (code = Some "P2025")
       then (Failed (JsonError 404 "Bale not found" "NOT_FOUND"), db)
       else (Failed (JsonError 500 "Failed to delete bale" "DELETE_ERROR"), db)).

End BaleWrites.

(** *** POST /api/bales/bulk *)

(** [z.object({ bales: z.array(createBaleSchema) })]: every element parses *)
Definition createBulkBalesSchema (bodies : list CreateBaleBody.t)
    : option (list Bale.t) :=
  mapM createBaleSchema bodies.

(** [[...new Set(ids)]]: the distinct ids, each at its first occurrence *)
Fixpoint distinctFrom (seen : list string) (ids : list string) : list string :=
  match ids with
  | [] => []
  | id :: rest =>
    if bool_decide (id ∈ seen) then distinctFrom seen rest
    else id :: distinctFrom (id :: seen) rest
  end.

Definition distinct (ids : list string) : list string := distinctFrom [] ids.

(** [for (const containerId of ids) await requireContainerAccess(c, containerId)] *)
Fixpoint requireEachContainer (c : Context) (db : Db.t) (ids : list string)
    : Result () :=
  match ids with
  | [] => Ok ()
  | id :: rest =>
    _ ← requireContainerAccess c db id;
    requireEachContainer c db rest
  end.

Section BulkCreate.

(** [Promise.all(bales.map((bale) => prisma.bale.create({ data: bale })))]:
    the inserts run side by side, so what is awaited (the created rows, or
    the first rejection) and the tables they leave behind are a parameter. *)
Variable createAll : Db.t → list Bale.t → Result (list (string * Bale.t)) * Db.t.

Definition bulkError (code : option string) : Response (nat * list (string * Bale.t)) :=
  if bool_decide (code = Some "P2002")
  then JsonError 409 "One or more bale numbers already exist" "DUPLICATE_BALE"
  else JsonError 500 "Failed to create bales" "CREATE_ERROR".

Definition postBulkBales (c : Context) (db : Db.t) (bodies : list CreateBaleBody.t)
    : Response (nat * list (string * Bale.t)) * Db.t :=
  match createBulkBalesSchema bodies with
  | None => (Invalid, db)
  | Some bales =>
    tryCatch
      (auth ← requireAuth c;
       (* Only INSPECTOR and SUPERVISOR can create bales *)
       if negb (canCreateBales auth)
       then Ok (JsonError 403
                  "Access denied. Only inspectors and supervisors can create bales."
                  "FORBIDDEN", db)
       else
         (* Validate container access for each unique containerId *)
         _ ← requireEachContainer c db (distinct (Bale.containerId <$> bales));
         let '(created, db') := createAll db bales in
         Ok (tryCatch
               (created ← created; Ok (Json 201 (length created, created)))
               Rethrown bulkError,
             db'))
      (λ status message, (Rethrown status message, db))
      (λ code, (bulkError code, db))
  end.

End BulkCreate.

(** ** backend/src/routes/po-assignments.ts *)

(** [findMany({ where })] on the assignments; no order is asked for, so the
    rows are a set.  [where] has the [poId] when one is given and the company
    of the purchase order otherwise, and the [userId] when one is given. *)
Definition assignmentMatches (db : Db.t) (auth : AuthPayload.t)
    (poId userId : option string) (a : string * string) : Prop :=
  (if truthy poId then Some a.1 = poId
   else PurchaseOrder.companyId <$> Db.purchaseOrder db !! a.1
        = Some (AuthPayload.companyId auth))
  ∧ (if truthy userId then Some a.2 = userId else True).

#[global] Instance assignmentMatches_dec db auth poId userId a :
  Decision (assignmentMatches db auth poId userId a).
Proof. unfold assignmentMatches. destruct (truthy poId), (truthy userId); apply _. Defined.

(** GET /api/po-assignments *)
Definition listPOAssignments (c : Context) (db : Db.t) (poId userId : option string)
    : Response (gset (string * string)) :=
  tryCatch
    (auth ← requireRole c ["SUPERVISOR"];
     (* If poId is provided, verify access to that PO *)
     _ ← (if truthy poId
          then _ ← requirePOAccess c db (default "" poId); Ok ()
          else Ok ());
     Ok (Json 200 (filter (assignmentMatches db auth poId userId)
                     (Db.pOUserAssignment db))))
    Rethrown
    (λ _, JsonError 500 "Failed to fetch PO assignments" "FETCH_ERROR").

Section POAssignmentCreate.

(** The pair (poId, userId) is unique, which [poId_userId] in the guards and
    the 409 of the route show; what else the database checks on the insert
    (the foreign keys) is a parameter. *)
Variable assignmentError : Db.t → string * string → option string.

(** [prisma.pOUserAssignment.create({ data })] *)
Definition assignmentCreate (db : Db.t) (data : string * string) : Result Db.t :=
  if bool_decide (data ∈ Db.pOUserAssignment db) then Error (Some "P2002")
  else
    match assignmentError db data with
    | Some code => Error (Some code)
    | None => Ok (withAssignments ({[ data ]} ∪ Db.pOUserAssignment db) db)
    end.

(** POST /api/po-assignments *)
Definition postPOAssignment (c : Context) (db : Db.t) (poId userId : string)
    : Response (string * string) * Db.t :=
  tryCatch
    (_ ← requireRole c ["SUPERVISOR"];
     (* Verify access to the PO *)
     _ ← requirePOAccess c db poId;
     db' ← assignmentCreate db (poId, userId);
     Ok (Json 201 (poId, userId), db'))
    (λ status message, (Rethrown status message, db))
    (λ code,
       if bool_decide (code = Some "P2002")
       then (JsonError 409 "User already assigned to this PO" "DUPLICATE_ASSIGNMENT", db)
       else (JsonError 500 "Failed to create PO assignment" "CREATE_ERROR", db)).

End POAssignmentCreate.

(** ** webapp/src/pages/BaleQC.tsx: the decision [handleSave] puts in the body *)

Definition backendDecision (decision : string) : string :=
  if decision === "ACCEPT" then "PASS"
  else if decision === "REJECT" then "FAIL"
  else decision.

(** ** More vocabulary *)

(** Every row has the parent its foreign-key column names: the relations the
    guards read through [include]. *)
Definition referentialIntegrity (db : Db.t) : Prop :=
  (∀ id s, Db.shipment db !! id = Some s →
     is_Some (Db.purchaseOrder db !! Shipment.poId s))
  ∧ (∀ id k, Db.container db !! id = Some k →
     is_Some (Db.shipment db !! Container.shipmentId k))
  ∧ (∀ id b, Db.bale db !! id = Some b →
     is_Some (Db.container db !! Bale.containerId b)).

#[global] Instance referentialIntegrity_dec db : Decision (referentialIntegrity db).
Proof.
  unfold referentialIntegrity.
  apply and_dec; [|apply and_dec]; apply (map_Forall_dec _).
Defined.

(** A guard allowed *)
Definition allowed {T : Type} (r : Result T) : Prop := ∃ v, r = Ok v.

(** The string tests of [calculateBaleGrade], each written twice in the
    source: once against the enum member, once against its literal *)
Definition rejects (mold contamination : bool) (wetness : string) : bool :=
  mold || contamination || (wetness === Wetness.WET) || (wetness === "WET").

Definition greenish (color : string) : bool :=
  (color === Color.DARK_GREEN) || (color === "DARK_GREEN")
  || (color === Color.GREEN) || (color === "GREEN").

Definition dry (wetness : string) : bool :=
  (wetness === Wetness.DRY) || (wetness === "DRY").

(** The grades from best to worst, as numbers *)
Definition gradeRank (g : BaleGrade.t) : nat :=
  match g with
  | BaleGrade.A => 4
  | BaleGrade.B => 3
  | BaleGrade.C => 2
  | BaleGrade.D => 1
  | BaleGrade.REJECT => 0
  end.

(** * Properties *)

(** ** The grade calculation *)

Section Grade.

Import JS.

Lemma Qltb_spec (a b : Q) : Qltb a b = true ↔ (a < b)%Q.
Proof.
  unfold Qltb. rewrite negb_true_iff, <- not_true_iff_false, Qle_bool_iff.
  split; [apply Qnot_le_lt | apply Qlt_not_le].
Qed.

Lemma lt_Finite (a b : Q) : lt (Finite a) (Finite b) = true ↔ (a < b)%Q.
Proof. apply Qltb_spec. Qed.

Lemma le_Finite (a b : Q) : le (Finite a) (Finite b) = true ↔ (a <= b)%Q.
Proof. apply Qle_bool_iff. Qed.

(** A reading on one side of a bound is on the same side of every bound
    beyond it. *)
Lemma gt_not_le (m : number) (a b : Q) :
  (b <= a)%Q → gt m (Finite a) = true → le m (Finite b) = false.
Proof.
  destruct m as [q| | |]; cbn; try done.
  rewrite Qltb_spec, <- not_true_iff_false, Qle_bool_iff.
  intros H1 H2 H3. exact (Qlt_not_le _ _ H2 (Qle_trans _ _ _ H3 H1)).
Qed.

Lemma lt_not_ge (m : number) (a b : Q) :
  (a <= b)%Q → lt m (Finite a) = true → ge m (Finite b) = false.
Proof.
  destruct m as [q| | |]; cbn; try done.
  rewrite Qltb_spec, <- not_true_iff_false, Qle_bool_iff.
  intros H1 H2 H3. exact (Qlt_not_le _ _ H2 (Qle_trans _ _ _ H1 H3)).
Qed.

Lemma lt_not_gt (m : number) (a b : Q) :
  (a <= b)%Q → lt m (Finite a) = true → gt m (Finite b) = false.
Proof.
  destruct m as [q| | |]; cbn; try done.
  rewrite Qltb_spec, <- not_true_iff_false, Qltb_spec.
  intros H1 H2 H3.
  exact (Qlt_not_le _ _ H2 (Qle_trans _ _ _ H1 (Qlt_le_weak _ _ H3))).
Qed.

Lemma le_not_gt (m : number) (a : Q) :
  le m (Finite a) = true → gt m (Finite a) = false.
Proof.
  destruct m as [q| | |]; cbn; try done.
  rewrite Qle_bool_iff, <- not_true_iff_false, Qltb_spec. apply Qle_not_lt.
Qed.

(** C7. Whatever the moisture, the colour and the other flags are: when mold
    is set, or contamination is set, or the wetness is WET, the grade is
    REJECT.  The first rule wins over every later one. *)
Theorem reject_rule_first
    (moisture : option number) (color wetness : string) (mold contamination : bool) :
  mold = true ∨ contamination = true ∨ wetness = Wetness.WET →
  calculateBaleGrade moisture color wetness mold contamination = BaleGrade.REJECT.
Proof.
  intros [-> | [-> | ->]]; unfold calculateBaleGrade.
  - done.
  - by rewrite orb_true_r.
  - by rewrite !orb_true_r.
Qed.

Lemma reject_rule_first_witness :
  calculateBaleGrade (Some (of_Z 12)) Color.DARK_GREEN Wetness.WET false false
  = BaleGrade.REJECT.
Proof. apply reject_rule_first. right; right; reflexivity. Defined.

(** C8. For a green, dry bale without mold or contamination and a moisture
    reading [m]: above 30 the grade is D, above 25 and at most 30 it is C (both
    readings lie outside the band 10..14 of grade A). In particular 28 gives C
    and 31 gives D: the test for D comes before the test for C. *)
Theorem moisture_D_before_C :
  (∀ m : number, gt m 30 = true →
     calculateBaleGrade (Some m) Color.GREEN Wetness.DRY false false = BaleGrade.D)
  ∧ (∀ m : number, gt m 25 = true → le m 30 = true →
     calculateBaleGrade (Some m) Color.GREEN Wetness.DRY false false = BaleGrade.C)
  ∧ calculateBaleGrade (Some (of_Z 28)) "GREEN" "DRY" false false = BaleGrade.C
  ∧ calculateBaleGrade (Some (of_Z 31)) "GREEN" "DRY" false false = BaleGrade.D.
Proof.
  split_and!; [| |reflexivity..].
  - intros m Hm. unfold calculateBaleGrade, notNullAnd, of_Z in *.
    rewrite (gt_not_le m (inject_Z 30) (inject_Z 14)), Hm by (done || by cbv).
    rewrite !andb_false_r. reflexivity.
  - intros m Hm Hle. unfold calculateBaleGrade, notNullAnd, of_Z in *.
    rewrite (gt_not_le m (inject_Z 25) (inject_Z 14)),
      (le_not_gt m (inject_Z 30)), Hm by (done || by cbv).
    rewrite !andb_false_r. reflexivity.
Qed.

(** C10. A measured moisture below 10, with colour DARK_GREEN or GREEN,
    wetness DRY, no mold and no contamination, is graded A: the last rule
    (dark green or green, and dry) does not ask for the reading to be
    absent. *)
Theorem low_moisture_green_dry_is_A (m : number) (color : string) :
  lt m 10 = true →
  color = Color.DARK_GREEN ∨ color = Color.GREEN →
  calculateBaleGrade (Some m) color Wetness.DRY false false = BaleGrade.A.
Proof.
  intros Hm Hc. unfold calculateBaleGrade, notNullAnd, of_Z in *.
  rewrite (lt_not_ge m (inject_Z 10) (inject_Z 10)),
    (lt_not_gt m (inject_Z 10) (inject_Z 30)),
    (lt_not_gt m (inject_Z 10) (inject_Z 25)),
    (lt_not_gt m (inject_Z 10) (inject_Z 14)) by (done || by cbv).
  destruct Hc as [-> | ->]; reflexivity.
Qed.

Lemma moisture_D_before_C_witness :
  calculateBaleGrade (Some (Finite (61 # 2))) Color.GREEN Wetness.DRY false false
  = BaleGrade.D
  ∧ calculateBaleGrade (Some (Finite (30 # 1))) Color.GREEN Wetness.DRY false false
  = BaleGrade.C.
Proof.
  split.
  - apply (proj1 moisture_D_before_C (Finite (61 # 2))). reflexivity.
  - apply (proj1 (proj2 moisture_D_before_C) (Finite (30 # 1))); reflexivity.
Defined.

Lemma low_moisture_green_dry_is_A_witness :
  calculateBaleGrade (Some (Finite (19 # 2))) Color.GREEN Wetness.DRY false false
  = BaleGrade.A.
Proof. apply low_moisture_green_dry_is_A; [reflexivity | right; reflexivity]. Defined.

End Grade.

(** ** The access guards *)

Section Guards.

Implicit Types (P : AuthPayload.t) (db : Db.t) (e : EntityType) (id : string).
Implicit Types (a : gset (string * string)).

Lemma strictNe_true (x y : string) : x ≠ y → (x !== y) = true.
Proof. intros. unfold strictEq. by rewrite bool_decide_eq_false_2. Qed.

Lemma strictNe_false (x : string) : (x !== x) = false.
Proof. unfold strictEq. by rewrite bool_decide_eq_true_2. Qed.

(** Unfold a guard down to the table lookups. *)
Ltac guard_unfold :=
  unfold resolveAccess, requirePOAccess, requireShipmentAccess,
    requireContainerAccess, requireBaleAccess, requireAuth, getAuth,
    findBale, findContainer, findShipment, findAssignment, deref,
    rootCompany, entityPoId, chainPO, containerPO, shipmentPO, entityExists,
    withAssignments in *.

(** An entity without a row: 404, whatever else the tables hold. *)
Lemma absent_not_found P db e id :
  entityExists db e id = false →
  resolveAccess (Some P) db e id = HTTPException 404 (notFoundMessage e).
Proof.
  intros H. destruct e; guard_unfold; cbn in *;
    apply bool_decide_eq_false_1 in H;
    rewrite <- eq_None_not_Some in H; by rewrite H.
Qed.

(** An entity whose chain ends in another company: the same 404. *)
Lemma other_company_not_found P db e id company :
  rootCompany db e id = Some company →
  company ≠ AuthPayload.companyId P →
  resolveAccess (Some P) db e id = HTTPException 404 (notFoundMessage e).
Proof.
  intros H Hne. destruct e; guard_unfold; cbn in *; simplify_option_eq.
  all: by rewrite strictNe_true.
Qed.

(** An entity of the principal's own company: the guard allows, except that a
    CUSTOMER or SUPPLIER without an assignment for the entity's [poId] gets
    the 403.  The grant is the same for every set of assignments. *)
Lemma own_company_decision P db e id poId :
  rootCompany db e id = Some (AuthPayload.companyId P) →
  entityPoId db e id = Some poId →
  ∃ g : Grant, ∀ a,
    resolveAccess (Some P) (withAssignments a db) e id =
      if isCustomerOrSupplier P && negb (bool_decide ((poId, AuthPayload.userId P) ∈ a))
      then HTTPException 403 (forbiddenMessage e)
      else Ok g.
Proof.
  intros H Hpo. destruct e; guard_unfold; cbn in *; simplify_option_eq.
  all: eexists; intros a.
  all: match goal with H : PurchaseOrder.companyId _ = _ |- _ => rewrite H end.
  all: rewrite strictNe_false.
  all: destruct (isCustomerOrSupplier P); cbn; [|reflexivity].
  all: destruct (bool_decide _); reflexivity.
Qed.

(** Such an entity has a [poId]. *)
Lemma rooted_has_poId db e id company :
  rootCompany db e id = Some company → is_Some (entityPoId db e id).
Proof.
  intros H. destruct e; guard_unfold; cbn in *; simplify_option_eq; eauto.
Qed.

Lemma withAssignments_same db : withAssignments (Db.pOUserAssignment db) db = db.
Proof. by destruct db. Qed.

Lemma role_known_cases P :
  isCustomerOrSupplier P = true ↔
  AuthPayload.role P = "CUSTOMER" ∨ AuthPayload.role P = "SUPPLIER".
Proof.
  unfold isCustomerOrSupplier, strictEq.
  rewrite orb_true_iff, !bool_decide_eq_true. done.
Qed.

(** C1. An entity of any of the four types whose root company is not the
    principal's is answered with the 404 of its guard, whatever the
    principal's role and whatever assignments exist; and an entity that has no
    row at all is answered with exactly the same exception (same status, same
    message). *)
Theorem cross_tenant_not_found P db db' e id id' company a :
  rootCompany db e id = Some company →
  company ≠ AuthPayload.companyId P →
  entityExists db' e id' = false →
  resolveAccess (Some P) (withAssignments a db) e id
    = HTTPException 404 (notFoundMessage e)
  ∧ resolveAccess (Some P) db' e id'
    = resolveAccess (Some P) (withAssignments a db) e id.
Proof.
  intros Hroot Hne Habsent.
  assert (resolveAccess (Some P) (withAssignments a db) e id
          = HTTPException 404 (notFoundMessage e)) as ->.
  { by apply (other_company_not_found P _ e id company). }
  split; [done | by apply absent_not_found].
Qed.

Lemma cross_tenant_not_found_witness :
  resolveAccess (Some Fixture.outsider) (withAssignments {[ ("po1", "insp1") ]} Fixture.db)
    BALE "b1" = HTTPException 404 "Bale not found"
  ∧ resolveAccess (Some Fixture.outsider) Fixture.db BALE "b0"
    = resolveAccess (Some Fixture.outsider)
        (withAssignments {[ ("po1", "insp1") ]} Fixture.db) BALE "b1".
Proof.
  apply (cross_tenant_not_found Fixture.outsider Fixture.db Fixture.db BALE
           "b1" "b0" "acme");
    [ vm_compute; reflexivity | vm_compute; discriminate | vm_compute; reflexivity ].
Defined.

(** C2. For a CUSTOMER or SUPPLIER and an entity of the principal's own
    company, the guard allows exactly when an assignment exists for the
    entity's [poId] and the principal's [userId]; without one it throws the
    403 of the guard, not the 404. *)
Theorem restricted_role_needs_assignment P db e id poId :
  AuthPayload.role P = "CUSTOMER" ∨ AuthPayload.role P = "SUPPLIER" →
  rootCompany db e id = Some (AuthPayload.companyId P) →
  entityPoId db e id = Some poId →
  ((∃ g, resolveAccess (Some P) db e id = Ok g)
     ↔ (poId, AuthPayload.userId P) ∈ Db.pOUserAssignment db)
  ∧ ((poId, AuthPayload.userId P) ∉ Db.pOUserAssignment db →
     resolveAccess (Some P) db e id = HTTPException 403 (forbiddenMessage e)).
Proof.
  intros Hrole Hroot Hpo.
  destruct (own_company_decision P db e id poId Hroot Hpo) as [g Hg].
  specialize (Hg (Db.pOUserAssignment db)). rewrite withAssignments_same in Hg.
  apply role_known_cases in Hrole. rewrite Hrole in Hg. cbn in Hg.
  rewrite Hg. case_bool_decide; cbn; split; try done.
  - split; eauto.
  - split; [intros [? ?]; discriminate | done].
Qed.

Lemma restricted_role_needs_assignment_witness :
  ((∃ g, resolveAccess (Some Fixture.customer2) Fixture.db CONTAINER "k1" = Ok g)
     ↔ ("po1", "cust2") ∈ Db.pOUserAssignment Fixture.db)
  ∧ (("po1", "cust2") ∉ Db.pOUserAssignment Fixture.db →
     resolveAccess (Some Fixture.customer2) Fixture.db CONTAINER "k1"
     = HTTPException 403 "You do not have access to this container").
Proof.
  apply (restricted_role_needs_assignment Fixture.customer2 Fixture.db CONTAINER
           "k1" "po1");
    [ left; reflexivity | vm_compute; reflexivity | vm_compute; reflexivity ].
Defined.

(** C3. For a SUPERVISOR or INSPECTOR and an entity of the principal's own
    company, the guard allows, with one and the same grant under every set of
    assignments. *)
Theorem unrestricted_role_allowed P db e id :
  AuthPayload.role P = "SUPERVISOR" ∨ AuthPayload.role P = "INSPECTOR" →
  rootCompany db e id = Some (AuthPayload.companyId P) →
  ∃ g : Grant, ∀ a, resolveAccess (Some P) (withAssignments a db) e id = Ok g.
Proof.
  intros Hrole Hroot.
  destruct (rooted_has_poId db e id _ Hroot) as [poId Hpo].
  destruct (own_company_decision P db e id poId Hroot Hpo) as [g Hg].
  exists g. intros a. rewrite Hg.
  assert (isCustomerOrSupplier P = false) as ->; [|done].
  apply not_true_iff_false. rewrite role_known_cases.
  destruct Hrole as [-> | ->]; intros [? | ?]; discriminate.
Qed.

Lemma unrestricted_role_allowed_witness :
  ∃ g : Grant, ∀ a,
    resolveAccess (Some Fixture.inspector) (withAssignments a Fixture.db) BALE "b1"
    = Ok g.
Proof.
  apply (unrestricted_role_allowed Fixture.inspector Fixture.db BALE "b1");
    [ right; reflexivity | vm_compute; reflexivity ].
Defined.

(** C6, as stated, fails: a principal whose role is none of the four known
    ones is granted access to a purchase order of its own company. *)
Lemma unknown_role_is_granted_view :
  ¬ (∀ P db e id,
       AuthPayload.role P ∉ knownRoles →
       rootCompany db e id = Some (AuthPayload.companyId P) →
       ∀ g, resolveAccess (Some P) db e id ≠ Ok g).
Proof.
  intros H.
  apply (H Fixture.auditor Fixture.db PURCHASE_ORDER "po1")
    with (g := GrantPO Fixture.auditor).
  - by apply (bool_decide_eq_true_1 _); vm_compute.
  - vm_compute. reflexivity.
  - vm_compute. reflexivity.
Qed.

(** C6, amended. A principal whose role is none of SUPERVISOR, INSPECTOR,
    CUSTOMER, SUPPLIER is refused wherever the code lists the roles it
    admits: [requireRole] with any list of known roles throws the 403, and
    [canCreateBales] and [isSupervisor] are false.  The access guards list no
    roles: they only ask a CUSTOMER or SUPPLIER for an assignment, so such a
    principal is allowed on every entity of its own company. *)
Theorem unknown_role_capabilities P :
  AuthPayload.role P ∉ knownRoles →
  canCreateBales P = false
  ∧ isSupervisor P = false
  ∧ (∀ allowedRoles, allowedRoles ⊆ knownRoles →
       requireRole (Some P) allowedRoles
       = HTTPException 403
           ("Access denied. Required roles: " +:+ join ", " allowedRoles))
  ∧ (∀ db e id, rootCompany db e id = Some (AuthPayload.companyId P) →
       ∃ g : Grant, ∀ a, resolveAccess (Some P) (withAssignments a db) e id = Ok g).
Proof.
  intros Hrole. unfold knownRoles in Hrole.
  rewrite !not_elem_of_cons in Hrole. destruct Hrole as (Hs & Hi & Hc & Hp & _).
  split_and!.
  - unfold canCreateBales, strictEq. by rewrite !bool_decide_eq_false_2.
  - unfold isSupervisor, strictEq. by rewrite !bool_decide_eq_false_2.
  - intros allowed Hsub. unfold requireRole, includes; cbn.
    rewrite bool_decide_eq_false_2; [done|].
    intros Hin. apply Hsub in Hin. unfold knownRoles in Hin.
    rewrite !elem_of_cons, elem_of_nil in Hin. tauto.
  - intros db e id Hroot.
    destruct (rooted_has_poId db e id _ Hroot) as [poId Hpo].
    destruct (own_company_decision P db e id poId Hroot Hpo) as [g Hg].
    exists g. intros a. rewrite Hg.
    assert (isCustomerOrSupplier P = false) as ->; [|done].
    apply not_true_iff_false. rewrite role_known_cases. tauto.
Qed.

Lemma unknown_role_capabilities_witness :
  canCreateBales Fixture.auditor = false
  ∧ isSupervisor Fixture.auditor = false
  ∧ (∀ allowedRoles, allowedRoles ⊆ knownRoles →
       requireRole (Some Fixture.auditor) allowedRoles
       = HTTPException 403
           ("Access denied. Required roles: " +:+ join ", " allowedRoles))
  ∧ (∀ db e id, rootCompany db e id = Some "acme" →
       ∃ g : Grant, ∀ a,
         resolveAccess (Some Fixture.auditor) (withAssignments a db) e id = Ok g).
Proof.
  apply (unknown_role_capabilities Fixture.auditor).
  by apply (bool_decide_eq_true_1 _); vm_compute.
Defined.

(** C9. In the bale guard, for a CUSTOMER or SUPPLIER and a bale whose stored
    [poId] is not the purchase order its container hangs under:
    the company test reads the purchase order of the live chain, the
    assignment test reads the stored [poId].  So within the company the
    answer is the grant or the 403 according to the assignment for the stored
    [poId], and granting or revoking the assignment for the purchase order of
    the live chain changes nothing. *)
Theorem bale_decision_follows_stored_poId P db id b chainPo po :
  AuthPayload.role P = "CUSTOMER" ∨ AuthPayload.role P = "SUPPLIER" →
  Db.bale db !! id = Some b →
  containerPO db (Bale.containerId b) = Some chainPo →
  Db.purchaseOrder db !! chainPo = Some po →
  Bale.poId b ≠ chainPo →
  (PurchaseOrder.companyId po ≠ AuthPayload.companyId P →
     requireBaleAccess (Some P) db id = HTTPException 404 "Bale not found")
  ∧ (PurchaseOrder.companyId po = AuthPayload.companyId P →
     requireBaleAccess (Some P) db id =
       if bool_decide ((Bale.poId b, AuthPayload.userId P) ∈ Db.pOUserAssignment db)
       then Ok (P, BaleGrant.mk (Bale.containerId b) (Bale.shipmentId b) (Bale.poId b))
       else HTTPException 403 "You do not have access to this bale")
  ∧ (∀ a,
     requireBaleAccess (Some P)
       (withAssignments (a ∪ {[ (chainPo, AuthPayload.userId P) ]}) db) id
     = requireBaleAccess (Some P)
       (withAssignments (a ∖ {[ (chainPo, AuthPayload.userId P) ]}) db) id).
Proof.
  intros Hrole Hb Hchain Hpo Hstale. apply role_known_cases in Hrole.
  unfold containerPO, shipmentPO in Hchain.
  destruct (Db.container db !! Bale.containerId b) as [k|] eqn:Hk; [|done].
  cbn in Hchain.
  destruct (Db.shipment db !! Container.shipmentId k) as [s|] eqn:Hs; [|done].
  cbn in Hchain. injection Hchain as <-.
  assert (∀ a, requireBaleAccess (Some P) (withAssignments a db) id =
            if PurchaseOrder.companyId po !== AuthPayload.companyId P
            then HTTPException 404 "Bale not found"
            else if bool_decide ((Bale.poId b, AuthPayload.userId P) ∈ a)
            then Ok (P, BaleGrant.mk (Bale.containerId b) (Bale.shipmentId b)
                                     (Bale.poId b))
            else HTTPException 403 "You do not have access to this bale") as Hdec.
  { intros a. guard_unfold; cbn.
    rewrite Hb; cbn. rewrite Hk; cbn. rewrite Hs; cbn. rewrite Hpo; cbn.
    rewrite Hrole. destruct (_ !== _); [done|]. by case_bool_decide. }
  split_and!.
  - intros Hne. rewrite <- (withAssignments_same db), Hdec.
    by rewrite strictNe_true.
  - intros Heq. rewrite <- (withAssignments_same db) at 1. rewrite Hdec, Heq.
    by rewrite strictNe_false.
  - intros a. rewrite !Hdec. destruct (_ !== _); [done|].
    assert ((Bale.poId b, AuthPayload.userId P)
              ∈ a ∪ {[ (Shipment.poId s, AuthPayload.userId P) ]}
            ↔ (Bale.poId b, AuthPayload.userId P)
              ∈ a ∖ {[ (Shipment.poId s, AuthPayload.userId P) ]}) as Hiff.
    { rewrite elem_of_union, elem_of_difference, elem_of_singleton.
      assert ((Bale.poId b, AuthPayload.userId P)
              ≠ (Shipment.poId s, AuthPayload.userId P)) by congruence.
      tauto. }
    by rewrite (bool_decide_ext _ _ Hiff).
Qed.

Lemma bale_decision_follows_stored_poId_witness :
  (PurchaseOrder.companyId (PurchaseOrder.mk "acme")
     ≠ AuthPayload.companyId Fixture.customer1 →
     requireBaleAccess (Some Fixture.customer1) Fixture.db "b2"
     = HTTPException 404 "Bale not found")
  ∧ (PurchaseOrder.companyId (PurchaseOrder.mk "acme")
     = AuthPayload.companyId Fixture.customer1 →
     requireBaleAccess (Some Fixture.customer1) Fixture.db "b2" =
       if bool_decide (("po2", "cust1") ∈ Db.pOUserAssignment Fixture.db)
       then Ok (Fixture.customer1, BaleGrant.mk "k1" "s2" "po2")
       else HTTPException 403 "You do not have access to this bale")
  ∧ (∀ a,
     requireBaleAccess (Some Fixture.customer1)
       (withAssignments (a ∪ {[ ("po1", "cust1") ]}) Fixture.db) "b2"
     = requireBaleAccess (Some Fixture.customer1)
       (withAssignments (a ∖ {[ ("po1", "cust1") ]}) Fixture.db) "b2").
Proof.
  apply (bale_decision_follows_stored_poId Fixture.customer1 Fixture.db "b2"
           (Bale.mk "po2" "s2" "k1" "insp1" 2 Fixture.inspection) "po1"
           (PurchaseOrder.mk "acme"));
    [ left; reflexivity | vm_compute; reflexivity | vm_compute; reflexivity
    | vm_compute; reflexivity | vm_compute; discriminate ].
Defined.

End Guards.

(** ** The bale routes *)

Section BaleRoutes.

Implicit Types (P : AuthPayload.t) (db : Db.t) (q : BaleQuery.t).

Lemma prismaTake_subseteq {T : Type} (n : Z) (rows : list T) :
  prismaTake n rows ⊆ rows.
Proof.
  unfold prismaTake. case_bool_decide; [apply subseteq_take | apply subseteq_drop].
Qed.

(** The rows [findMany] returns satisfy its [where]. *)
Lemma findManyBales_where takeFits tie db w limit rows row :
  findManyBales takeFits tie db w limit = Ok rows → row ∈ rows →
  whereMatches db w row.2 = true.
Proof.
  unfold findManyBales. destruct limit as [n|]; [|done].
  destruct (takeFits n); [|done].
  intros [= <-] Hin. apply prismaTake_subseteq in Hin.
  rewrite merge_sort_Permutation in Hin.
  apply list_elem_of_filter in Hin as [Hw _]. by apply Is_true_true.
Qed.

(** Without a company filter, [where] is the conjunction of the column filters. *)
Lemma whereMatches_unscoped P db q b :
  BaleWhere.companyId (balesWhere P q) = None →
  whereMatches db (balesWhere P q) b = matchesFilter q b.
Proof.
  unfold whereMatches, matchesFilter. intros ->. by rewrite andb_true_r.
Qed.

(** The limit is read as JavaScript reads it: white space skipped, a sign,
    the leading digits, and the result a double. *)
Example parseInt_reads_as_JavaScript :
  parseInt "25" = Some 25
  ∧ parseInt " -3" = Some (-3)
  ∧ parseInt "12px" = Some 12
  ∧ parseInt (String (ascii_of_nat 194) (String (ascii_of_nat 160) "5")) = Some 5
  ∧ parseInt "" = None
  ∧ parseInt "px" = None
  ∧ parseInt "9007199254740993" = Some 9007199254740992
  ∧ parseInt "99999999999999999999" = Some 100000000000000000000.
Proof. vm_compute. repeat split. Qed.

(** A limit that parses but that Prisma does not take is answered with the
    500 of the handler. *)
Example limit_out_of_range_is_500 takeFits tie :
  takeFits 100000000000000000000 = false →
  listBales takeFits tie (Some Fixture.inspector) Fixture.db
    (BaleQuery.mk None None (Some "po1") None (Some "99999999999999999999"))
  = JsonError 500 "Failed to fetch bales" "FETCH_ERROR".
Proof.
  intros Hfits. set (q := BaleQuery.mk _ _ _ _ _).
  assert (parseInt (orElse (BaleQuery.limit q) "100")
          = Some 100000000000000000000) as Hparse by (vm_compute; reflexivity).
  unfold listBales, findManyBales. rewrite Hparse, Hfits. reflexivity.
Qed.

(** Which of two bales of equal number a limit of 1 keeps is the database's
    choice. *)
Example equal_numbers_in_database_order :
  listBales Fixture.int64 Fixture.a7First (Some Fixture.inspector) Fixture.twins
    (BaleQuery.mk None None (Some "po1") None (Some "1"))
  = Json 200 [("a7", Bale.mk "po1" "s1" "k1" "insp1" 1 Fixture.inspection)]
  ∧ listBales Fixture.int64 Fixture.b1First (Some Fixture.inspector) Fixture.twins
      (BaleQuery.mk None None (Some "po1") None (Some "1"))
    = Json 200 [("b1", Bale.mk "po1" "s1" "k1" "insp1" 1 Fixture.inspection)].
Proof. vm_compute. split; reflexivity. Qed.

(** C5, as stated, fails: a query that gives only an inspectorId is answered
    differently to two principals that differ in nothing but the company. *)
Lemma inspector_filter_is_company_scoped :
  ¬ (∀ P P' db q,
       AuthPayload.userId P = AuthPayload.userId P' →
       AuthPayload.role P = AuthPayload.role P' →
       truthy (BaleQuery.containerId q) = false →
       truthy (BaleQuery.shipmentId q) || truthy (BaleQuery.poId q)
         || truthy (BaleQuery.inspectorId q) = true →
       listBales Fixture.int64 Fixture.sameRank (Some P) db q
       = listBales Fixture.int64 Fixture.sameRank (Some P') db q).
Proof.
  intros H.
  specialize (H Fixture.inspector Fixture.outsider Fixture.db
                (BaleQuery.mk None None None (Some "insp1") None)
                eq_refl eq_refl eq_refl eq_refl).
  vm_compute in H. discriminate H.
Qed.

(** C5, amended.  The list handler puts the company filter into [where]
    exactly when none of containerId, shipmentId, poId is given.  For a query
    without a (non-empty) containerId: with a shipmentId or a poId (with or
    without an inspectorId) the answer does not depend on the principal, with
    no company scoping and no assignment check: it is the 500 when the limit
    is not an integer that Prisma accepts as [take], and otherwise the bales
    matching the column filters by ascending number, those of equal number
    as the database orders them on that query, cut to the limit.  With
    neither (also when only an inspectorId is given) every bale returned
    matches the column filters and lies in the principal's company.  This
    holds whichever integers Prisma accepts and however the database orders
    equal numbers. *)
Theorem list_company_scoping takeFits tie P db q :
  (BaleWhere.companyId (balesWhere P q) =
     if negb (truthy (BaleQuery.containerId q))
        && negb (truthy (BaleQuery.shipmentId q))
        && negb (truthy (BaleQuery.poId q))
     then Some (AuthPayload.companyId P) else None)
  ∧ (truthy (BaleQuery.containerId q) = false →
     truthy (BaleQuery.shipmentId q) || truthy (BaleQuery.poId q) = true →
       ∀ P', listBales takeFits tie (Some P') db q = unscopedList takeFits tie db q)
  ∧ (truthy (BaleQuery.containerId q) = false →
     truthy (BaleQuery.shipmentId q) || truthy (BaleQuery.poId q) = false →
       ∀ rows row,
         listBales takeFits tie (Some P) db q = Json 200 rows → row ∈ rows →
         matchesFilter q row.2 = true
         ∧ baleCompany db row.2 = Some (AuthPayload.companyId P)).
Proof.
  split; [reflexivity|].
  assert (truthy (BaleQuery.containerId q) = false →
          ∀ P', BaleWhere.companyId (balesWhere P' q) =
     if negb (truthy (BaleQuery.shipmentId q)) && negb (truthy (BaleQuery.poId q))
     then Some (AuthPayload.companyId P') else None) as Hwhere.
  { intros Hc P'. unfold balesWhere; cbn. by rewrite Hc. }
  assert (truthy (BaleQuery.containerId q) = false →
          ∀ P', listBales takeFits tie (Some P') db q =
     match findManyBales takeFits tie db (balesWhere P' q)
             (parseInt (orElse (BaleQuery.limit q) "100")) with
     | Ok rows => Json 200 rows
     | _ => JsonError 500 "Failed to fetch bales" "FETCH_ERROR"
     end) as Hlist.
  { intros Hc P'. unfold listBales, tryCatch, requireAuth; cbn. rewrite Hc; cbn.
    unfold findManyBales. destruct (parseInt _) as [n|]; [|done].
    by destruct (takeFits n). }
  split.
  - intros Hc Hgiven P'. rewrite Hlist by done. unfold findManyBales, unscopedList.
    destruct (parseInt _) as [n|]; [|done].
    destruct (takeFits n); [|done].
    do 3 f_equal. apply list_filter_iff. intros row.
    rewrite whereMatches_unscoped; [done|].
    rewrite Hwhere by done. apply orb_true_iff in Hgiven as [-> | ->]; [done|].
    by rewrite andb_false_r.
  - intros Hc Hnone rows row Hrows Hin. rewrite Hlist in Hrows by done.
    destruct (findManyBales _ _ _ _ _) as [rows'| |] eqn:Hfind; try done.
    injection Hrows as ->.
    pose proof (findManyBales_where _ _ _ _ _ _ _ Hfind Hin) as Hw.
    apply orb_false_iff in Hnone as [Hs Hp].
    unfold whereMatches in Hw. rewrite Hwhere, Hs, Hp in Hw by done. cbn in Hw.
    apply andb_true_iff in Hw as [Hcols Hcompany]. split; [done|].
    destruct (baleCompany db row.2) as [company|]; [|done].
    f_equal. by apply bool_decide_eq_true_1 in Hcompany.
Qed.

Lemma list_company_scoping_witness :
  listBales Fixture.int64 Fixture.sameRank (Some Fixture.outsider) Fixture.db
    (BaleQuery.mk None None (Some "po1") None None)
  = Json 200 [("b1", Bale.mk "po1" "s1" "k1" "insp1" 1 Fixture.inspection)]
  ∧ baleCompany Fixture.db (Bale.mk "po1" "s1" "k1" "insp1" 1 Fixture.inspection)
    = Some "acme".
Proof.
  split.
  - destruct (list_company_scoping Fixture.int64 Fixture.sameRank
                Fixture.inspector Fixture.db
                (BaleQuery.mk None None (Some "po1") None None))
      as (_ & Hunscoped & _).
    etrans; [apply (Hunscoped eq_refl eq_refl Fixture.outsider)|].
    vm_compute. reflexivity.
  - destruct (list_company_scoping Fixture.int64 Fixture.sameRank
                Fixture.inspector Fixture.db
                (BaleQuery.mk None None None (Some "insp1") (Some "1")))
      as (_ & _ & Hcompany).
    apply (Hcompany eq_refl eq_refl
             [("b1", Bale.mk "po1" "s1" "k1" "insp1" 1 Fixture.inspection)]
             ("b1", Bale.mk "po1" "s1" "k1" "insp1" 1 Fixture.inspection)).
    + vm_compute. reflexivity.
    + apply list_elem_of_here.
Defined.

(** The parsed data carries the reference ids of the body unchanged. *)
Lemma createBaleSchema_ids body data :
  createBaleSchema body = Some data →
  Bale.poId data = CreateBaleBody.poId body
  ∧ Bale.shipmentId data = CreateBaleBody.shipmentId body
  ∧ Bale.containerId data = CreateBaleBody.containerId body.
Proof.
  unfold createBaleSchema. destruct (asInt _) as [n|]; [cbn|done].
  destruct (_ && _); [|done]. by intros [= <-].
Qed.

(** Whatever the database checks on its own and whatever id it generates: a
    bale the create route answers with 201 is stored with the [poId] and the
    [shipmentId] of the request body. *)
Lemma postBale_stores_body_ids constraintError newId c db body id row db' :
  postBale constraintError newId c db body = (Json 201 (id, row), db') →
  Db.bale db' !! id = Some row
  ∧ Bale.poId row = CreateBaleBody.poId body
  ∧ Bale.shipmentId row = CreateBaleBody.shipmentId body.
Proof.
  unfold postBale. destruct (createBaleSchema body) as [data|] eqn:Hdata; [|done].
  apply createBaleSchema_ids in Hdata as (Hpo & Hs & _).
  unfold tryCatch, baleCreate. destruct (requireAuth c) as [auth| |]; cbn; try done.
  - destruct (canCreateBales auth); cbn; [|done].
    destruct (requireContainerAccess c db _) as [?| |]; cbn; try done.
    + destruct (constraintError db data); cbn.
      * by case_bool_decide.
      * intros [= <- <- <-]; cbn. by rewrite lookup_insert_eq.
    + by case_bool_decide.
  - by case_bool_decide.
Qed.

(** C4 does not hold of the create route.  An inspector of acme posts a bale
    for container k1, which hangs under shipment s1 and purchase order po1,
    with a body that names shipment s9 and purchase order po9.  Even under
    the strictest schema the route answers 201, and the stored bale carries
    po9 and s9 while its live chain leads to s1 and po1. *)
Theorem created_bale_keeps_client_ids :
  ∃ row db',
    postBale Fixture.strictSchema Fixture.freshId (Some Fixture.inspector)
      Fixture.db Fixture.mismatchedBody = (Json 201 ("b-new", row), db')
    ∧ Db.bale db' !! "b-new" = Some row
    ∧ Bale.poId row = "po9" ∧ Bale.shipmentId row = "s9"
    ∧ chainPO db' BALE "b-new" = Some "po1"
    ∧ Container.shipmentId <$> Db.container db' !! Bale.containerId row = Some "s1".
Proof.
  destruct (postBale Fixture.strictSchema Fixture.freshId (Some Fixture.inspector)
              Fixture.db Fixture.mismatchedBody) as [response db'] eqn:Hpost.
  vm_compute in Hpost. injection Hpost as <- <-.
  eexists _, _. split; [reflexivity|].
  split_and!; vm_compute; reflexivity.
Qed.

End BaleRoutes.

(** ** More about the grade calculation *)

Section GradeRules.

Import JS.

Implicit Types (moisture : option number) (color wetness : string).
Implicit Types (mold contamination : bool).

Lemma strictEq_true (x y : string) : (x === y) = true ↔ x = y.
Proof. unfold strictEq. apply bool_decide_eq_true. Qed.

Lemma rejects_spec mold contamination wetness :
  rejects mold contamination wetness = true
  ↔ mold = true ∨ contamination = true ∨ wetness = "WET".
Proof.
  unfold rejects, Wetness.WET. rewrite !orb_true_iff, strictEq_true. tauto.
Qed.

Lemma greenish_spec color :
  greenish color = true ↔ color = "DARK_GREEN" ∨ color = "GREEN".
Proof.
  unfold greenish, Color.DARK_GREEN, Color.GREEN.
  rewrite !orb_true_iff, !strictEq_true. tauto.
Qed.

Lemma dry_spec wetness : dry wetness = true ↔ wetness = "DRY".
Proof. unfold dry, Wetness.DRY. rewrite orb_true_iff, strictEq_true. tauto. Qed.

Lemma Qle_bool_false (a b : Q) : Qle_bool a b = false ↔ (b < a)%Q.
Proof.
  rewrite <- not_true_iff_false, Qle_bool_iff.
  split; [apply Qnot_le_lt | apply Qlt_not_le].
Qed.

Lemma Qltb_false (a b : Q) : Qltb a b = false ↔ (b <= a)%Q.
Proof. unfold Qltb. by rewrite negb_false_iff, Qle_bool_iff. Qed.

(** Case analysis on every comparison of rationals in sight, each case with
    the order fact it stands for. *)
Ltac compare_all :=
  repeat match goal with
  | |- context [Qle_bool ?a ?b] => destruct (Qle_bool a b) eqn:?
  | |- context [Qltb ?a ?b] => destruct (Qltb a b) eqn:?
  | H : context [if Qle_bool ?a ?b then _ else _] |- _ => destruct (Qle_bool a b) eqn:?
  | H : context [if Qltb ?a ?b then _ else _] |- _ => destruct (Qltb a b) eqn:?
  end;
  repeat match goal with
  | H : Qle_bool _ _ = true |- _ => apply Qle_bool_iff in H
  | H : Qle_bool _ _ = false |- _ => apply Qle_bool_false in H
  | H : Qltb _ _ = true |- _ => apply Qltb_spec in H
  | H : Qltb _ _ = false |- _ => apply Qltb_false in H
  end;
  unfold inject_Z in *.

Lemma grade_rejected moisture color wetness mold contamination :
  rejects mold contamination wetness = true →
  calculateBaleGrade moisture color wetness mold contamination = BaleGrade.REJECT.
Proof.
  intros H. unfold calculateBaleGrade.
  fold (rejects mold contamination wetness). by rewrite H.
Qed.

(** The grade is REJECT only through the first rule. *)
Theorem reject_only_by_first_rule moisture color wetness mold contamination :
  calculateBaleGrade moisture color wetness mold contamination = BaleGrade.REJECT
  ↔ mold = true ∨ contamination = true ∨ wetness = "WET".
Proof.
  rewrite <- rejects_spec. unfold calculateBaleGrade.
  fold (rejects mold contamination wetness).
  destruct (rejects _ _ _); [done|].
  split; [|done]. repeat case_match; done.
Qed.

Lemma greenish_not_light color :
  greenish color = true →
  (color === "LIGHT_GREEN") = false ∧ (color === "BROWN") = false.
Proof. intros [-> | ->]%greenish_spec; split; reflexivity. Qed.

Lemma dry_not_damp wetness : dry wetness = true → (wetness === "DAMP") = false.
Proof. intros ->%dry_spec. reflexivity. Qed.

(** The rules after the first, folded into one decision on the moisture. *)
Lemma grade_by_moisture (m : number) color wetness mold contamination :
  rejects mold contamination wetness = false →
  calculateBaleGrade (Some m) color wetness mold contamination =
    if gt m 30 then BaleGrade.D
    else if gt m 25 then BaleGrade.C
    else if greenish color && dry wetness && negb (gt m 14) then BaleGrade.A
    else BaleGrade.B.
Proof.
  intros Hrej. unfold calculateBaleGrade, notNullAnd.
  fold (rejects mold contamination wetness) (greenish color) (dry wetness).
  rewrite Hrej.
  destruct (greenish color) eqn:Hg, (dry wetness) eqn:Hd; cbn [andb].
  - unfold Color.LIGHT_GREEN, Color.BROWN, Wetness.DAMP.
    destruct (greenish_not_light _ Hg) as [-> ->].
    rewrite (dry_not_damp _ Hd).
    destruct m as [q| | |]; cbn; try done.
    compare_all; try done; lra.
  - rewrite andb_false_r. destruct m as [q| | |]; cbn; try done;
      repeat case_match; done.
  - destruct m as [q| | |]; cbn; try done; repeat case_match; done.
  - destruct m as [q| | |]; cbn; try done; repeat case_match; done.
Qed.

Lemma grade_without_moisture color wetness mold contamination :
  rejects mold contamination wetness = false →
  calculateBaleGrade None color wetness mold contamination =
    if greenish color && dry wetness then BaleGrade.A else BaleGrade.B.
Proof.
  intros Hrej. unfold calculateBaleGrade, notNullAnd.
  fold (rejects mold contamination wetness) (greenish color) (dry wetness).
  rewrite Hrej, andb_false_r; cbn.
  destruct (greenish color) eqn:Hg, (dry wetness) eqn:Hd; cbn.
  - unfold Color.LIGHT_GREEN, Color.BROWN, Wetness.DAMP.
    destruct (greenish_not_light _ Hg) as [-> ->].
    by rewrite (dry_not_damp _ Hd).
  - by case_match.
  - by case_match.
  - by case_match.
Qed.

Lemma gt_false_le (m : number) (a b : Q) :
  gt m (Finite a) = false → gt m (Finite b) = true → le m (Finite a) = true.
Proof. destruct m as [q| | |]; cbn; try done. intros. compare_all; try done; lra. Qed.

Lemma gt_above (m : number) (a b : Q) :
  (b <= a)%Q → gt m (Finite a) = true → gt m (Finite b) = true.
Proof. destruct m as [q| | |]; cbn; try done. intros. compare_all; try done; lra. Qed.

(** Once the first rule has passed, the grades D and C are decided by the
    moisture alone, whatever the colour and the wetness: D exactly for a
    reading above 30, C exactly for a reading above 25 and at most 30. *)
Theorem grades_D_and_C_by_moisture moisture color wetness mold contamination :
  rejects mold contamination wetness = false →
  (calculateBaleGrade moisture color wetness mold contamination = BaleGrade.D
     ↔ ∃ m, moisture = Some m ∧ gt m 30 = true)
  ∧ (calculateBaleGrade moisture color wetness mold contamination = BaleGrade.C
     ↔ ∃ m, moisture = Some m ∧ gt m 25 = true ∧ le m 30 = true).
Proof.
  intros Hrej. destruct moisture as [m|].
  - rewrite grade_by_moisture by done. unfold of_Z.
    destruct (gt m (Finite (inject_Z 30))) eqn:H30.
    + split; [split; eauto|].
      split; [done|]. intros (? & [= <-] & _ & Hle).
      apply le_not_gt in Hle. congruence.
    + split.
      { split; [|intros (? & [= <-] & ?); congruence].
        by repeat case_match. }
      destruct (gt m (Finite (inject_Z 25))) eqn:H25.
      * split; [|done]. intros _. exists m. eauto using gt_false_le.
      * split; [|intros (? & [= <-] & ? & _); congruence].
        by repeat case_match.
  - rewrite grade_without_moisture by done.
    split; (split; [by case_match | by intros (? & ? & ?)]).
Qed.

Lemma grades_D_and_C_by_moisture_witness :
  (calculateBaleGrade (Some (of_Z 40)) "BROWN" "DAMP" false false = BaleGrade.D
     ↔ ∃ m, Some (of_Z 40) = Some m ∧ gt m 30 = true)
  ∧ (calculateBaleGrade (Some (of_Z 40)) "BROWN" "DAMP" false false = BaleGrade.C
     ↔ ∃ m, Some (of_Z 40) = Some m ∧ gt m 25 = true ∧ le m 30 = true).
Proof. apply grades_D_and_C_by_moisture. reflexivity. Defined.

(** The grade is A exactly when there is no mold and no contamination, the
    colour is dark green or green, the wetness is DRY, and the moisture is
    absent or not above 14 (NaN included). *)
Theorem grade_A_iff moisture color wetness mold contamination :
  calculateBaleGrade moisture color wetness mold contamination = BaleGrade.A
  ↔ mold = false ∧ contamination = false
    ∧ (color = "DARK_GREEN" ∨ color = "GREEN") ∧ wetness = "DRY"
    ∧ (moisture = None ∨ ∃ m, moisture = Some m ∧ gt m 14 = false).
Proof.
  rewrite <- greenish_spec, <- dry_spec.
  destruct (rejects mold contamination wetness) eqn:Hrej.
  - split.
    + intros HA. rewrite grade_rejected in HA by done. discriminate.
    + intros (-> & -> & _ & ->%dry_spec & _). discriminate.
  - assert (mold = false ∧ contamination = false) as [-> ->].
    { unfold rejects in Hrej. rewrite !orb_false_iff in Hrej. tauto. }
    destruct moisture as [m|].
    + rewrite grade_by_moisture by done. unfold of_Z.
      destruct (gt m (Finite (inject_Z 30))) eqn:H30.
      { split; [done|]. intros (_ & _ & _ & _ & [? | (? & [= <-] & H14)]); [done|].
        apply (gt_above m _ (inject_Z 14)) in H30; [congruence | by cbv]. }
      destruct (gt m (Finite (inject_Z 25))) eqn:H25.
      { split; [done|]. intros (_ & _ & _ & _ & [? | (? & [= <-] & H14)]); [done|].
        apply (gt_above m _ (inject_Z 14)) in H25; [congruence | by cbv]. }
      split.
      * intros HA.
        destruct (greenish color), (dry wetness),
          (gt m (Finite (inject_Z 14))) eqn:H14; try discriminate HA.
        split_and!; try done. right; eauto.
      * by intros (_ & _ & -> & -> & [? | (? & [= <-] & ->)]).
    + rewrite grade_without_moisture by done. split.
      * intros HA. destruct (greenish color), (dry wetness); try discriminate HA.
        split_and!; eauto.
      * by intros (_ & _ & -> & -> & _).
Qed.

(** A reading that is NaN is graded like an absent reading. *)
Theorem NaN_moisture_as_absent color wetness mold contamination :
  calculateBaleGrade (Some NaN) color wetness mold contamination
  = calculateBaleGrade None color wetness mold contamination.
Proof.
  destruct (rejects mold contamination wetness) eqn:Hrej.
  - by rewrite !grade_rejected.
  - rewrite grade_by_moisture, grade_without_moisture by done. cbn.
    by rewrite andb_true_r.
Qed.

(** More moisture never gives a better grade: for two readings [m1 <= m2]
    and the same colour, wetness and flags, the grade for [m2] is the grade
    for [m1] or a worse one. *)
Theorem more_moisture_never_better (m1 m2 : number) color wetness mold contamination :
  le m1 m2 = true →
  (gradeRank (calculateBaleGrade (Some m2) color wetness mold contamination)
   ≤ gradeRank (calculateBaleGrade (Some m1) color wetness mold contamination))%nat.
Proof.
  intros Hle. destruct (rejects mold contamination wetness) eqn:Hrej.
  - by rewrite !grade_rejected.
  - rewrite !grade_by_moisture by done.
    destruct (greenish color && dry wetness).
    all: destruct m1 as [q1| | |], m2 as [q2| | |]; cbn in *; try done.
    all: compare_all; cbn; try lia; lra.
Qed.

Lemma more_moisture_never_better_witness :
  (gradeRank (calculateBaleGrade (Some (of_Z 27)) "GREEN" "DRY" false false)
   ≤ gradeRank (calculateBaleGrade (Some (of_Z 12)) "GREEN" "DRY" false false))%nat.
Proof. apply more_moisture_never_better. reflexivity. Defined.

End GradeRules.

(** ** More about the access guards *)

Section GuardFacts.

Implicit Types (P : AuthPayload.t) (db : Db.t) (e : EntityType) (id : string).
Implicit Types (a : gset (string * string)).

Ltac unfold_guards :=
  unfold resolveAccess, requirePOAccess, requireShipmentAccess,
    requireContainerAccess, requireBaleAccess, requireAuth, getAuth,
    findBale, findContainer, findShipment, findAssignment, deref,
    rootCompany, entityPoId, chainPO, containerPO, shipmentPO, entityExists,
    withAssignments in *.

(** A row whose chain breaks off before a purchase order: the guard fails
    with a TypeError. *)
Lemma dangling_chain_error P db e id :
  entityExists db e id = true → rootCompany db e id = None →
  resolveAccess (Some P) db e id = TypeError.
Proof.
  intros Hex Hroot. destruct e; unfold_guards; cbn in *.
  all: apply bool_decide_eq_true_1 in Hex as [row Hrow].
  all: repeat (rewrite Hrow in *; cbn in * ); try done.
  all: repeat (match goal with
               | |- context [@lookup _ _ _ _ ?k ?m] =>
                 let E := fresh in
                 destruct (m !! k) eqn:E; rewrite ?E in Hroot
               end; cbn in *; try done).
Qed.

(** The decision of a guard for an authenticated principal, by cases on the
    tables. *)
Lemma decision_cases P db e id :
  (entityExists db e id = false
   ∧ resolveAccess (Some P) db e id = HTTPException 404 (notFoundMessage e))
  ∨ (entityExists db e id = true ∧ rootCompany db e id = None
     ∧ resolveAccess (Some P) db e id = TypeError)
  ∨ (∃ company, entityExists db e id = true ∧ rootCompany db e id = Some company
     ∧ company ≠ AuthPayload.companyId P
     ∧ resolveAccess (Some P) db e id = HTTPException 404 (notFoundMessage e))
  ∨ (∃ poId g, entityExists db e id = true
     ∧ rootCompany db e id = Some (AuthPayload.companyId P)
     ∧ entityPoId db e id = Some poId
     ∧ ∀ a, resolveAccess (Some P) (withAssignments a db) e id =
         if isCustomerOrSupplier P
            && negb (bool_decide ((poId, AuthPayload.userId P) ∈ a))
         then HTTPException 403 (forbiddenMessage e)
         else Ok g).
Proof.
  destruct (entityExists db e id) eqn:Hex.
  2: { left. split; [done|]. by apply absent_not_found. }
  right. destruct (rootCompany db e id) as [company|] eqn:Hroot.
  2: { left. split_and!; try done. by apply dangling_chain_error. }
  right. destruct (decide (company = AuthPayload.companyId P)) as [->|Hne].
  - right. destruct (rooted_has_poId db e id _ Hroot) as [poId Hpo].
    destruct (own_company_decision P db e id poId Hroot Hpo) as [g Hg].
    exists poId, g. done.
  - left. exists company. split_and!; try done.
    by apply (other_company_not_found P db e id company).
Qed.

Lemma ok_rooted P db e id g :
  resolveAccess (Some P) db e id = Ok g →
  rootCompany db e id = Some (AuthPayload.companyId P).
Proof.
  intros Hok.
  destruct (decision_cases P db e id)
    as [[_ H] | [(_ & _ & H) | [(? & _ & _ & _ & H) | (? & ? & _ & Hroot & _)]]];
    congruence.
Qed.

Lemma creator_not_restricted P :
  canCreateBales P = true → isCustomerOrSupplier P = false.
Proof.
  unfold canCreateBales, isCustomerOrSupplier, strictEq.
  rewrite orb_true_iff, orb_false_iff, !bool_decide_eq_true, !bool_decide_eq_false.
  intros [-> | ->]; done.
Qed.

(** Whenever a guard allows: the entity exists, its root company is the
    principal's, and a CUSTOMER or SUPPLIER holds an assignment for the
    entity's [poId]. *)
Theorem allowed_is_sound P db e id g :
  resolveAccess (Some P) db e id = Ok g →
  entityExists db e id = true
  ∧ rootCompany db e id = Some (AuthPayload.companyId P)
  ∧ (isCustomerOrSupplier P = true →
     ∃ poId, entityPoId db e id = Some poId
             ∧ (poId, AuthPayload.userId P) ∈ Db.pOUserAssignment db).
Proof.
  intros Hok.
  destruct (decision_cases P db e id)
    as [[_ H] | [(_ & _ & H) | [(? & _ & _ & _ & H) | (poId & g' & Hex & Hroot & Hpo & H)]]];
    try congruence.
  split_and!; try done. intros Hcs. exists poId. split; [done|].
  specialize (H (Db.pOUserAssignment db)).
  rewrite withAssignments_same, Hok, Hcs in H.
  cbn in H. case_bool_decide; [done | discriminate].
Qed.

Lemma allowed_is_sound_witness :
  entityExists Fixture.db SHIPMENT "s2" = true
  ∧ rootCompany Fixture.db SHIPMENT "s2" = Some "acme"
  ∧ (isCustomerOrSupplier Fixture.customer1 = true →
     ∃ poId, entityPoId Fixture.db SHIPMENT "s2" = Some poId
             ∧ (poId, "cust1") ∈ Db.pOUserAssignment Fixture.db).
Proof.
  apply (allowed_is_sound Fixture.customer1 Fixture.db SHIPMENT "s2"
           (GrantShipment Fixture.customer1 "po2")).
  vm_compute. reflexivity.
Defined.

Lemma integrity_rooted db e id :
  referentialIntegrity db → entityExists db e id = true →
  is_Some (rootCompany db e id).
Proof.
  intros (Hs & Hk & Hb) Hex. destruct e; unfold_guards; cbn in *.
  all: apply bool_decide_eq_true_1 in Hex as [row Hrow];
    repeat (rewrite Hrow; cbn).
  - eauto.
  - destruct (Hs _ _ Hrow) as [po ->]. cbn. eauto.
  - destruct (Hk _ _ Hrow) as [s Hsrow]. rewrite Hsrow. cbn.
    destruct (Hs _ _ Hsrow) as [po ->]. cbn. eauto.
  - destruct (Hb _ _ Hrow) as [k Hkrow]. rewrite Hkrow. cbn.
    destruct (Hk _ _ Hkrow) as [s Hsrow]. rewrite Hsrow. cbn.
    destruct (Hs _ _ Hsrow) as [po ->]. cbn. eauto.
Qed.

(** When every row has its parent, a guard either allows or throws one of
    the three exceptions 401, 403, 404 with its own message; it never fails
    in another way. *)
Theorem guard_outcomes (c : Context) db e id :
  referentialIntegrity db →
  (∃ g, resolveAccess c db e id = Ok g)
  ∨ resolveAccess c db e id = HTTPException 401 "Authentication required"
  ∨ resolveAccess c db e id = HTTPException 403 (forbiddenMessage e)
  ∨ resolveAccess c db e id = HTTPException 404 (notFoundMessage e).
Proof.
  intros Hri. destruct c as [P|].
  2: { right; left. by destruct e. }
  destruct (decision_cases P db e id)
    as [[_ H] | [(Hex & Hroot & _) | [(? & _ & _ & _ & H) | (poId & g & _ & _ & _ & H)]]].
  - auto.
  - destruct (integrity_rooted db e id Hri Hex) as [? ?]. congruence.
  - auto.
  - specialize (H (Db.pOUserAssignment db)). rewrite withAssignments_same in H.
    rewrite H. destruct (_ && _); eauto.
Qed.

Lemma guard_outcomes_witness :
  (∃ g, resolveAccess (Some Fixture.customer2) Fixture.db BALE "b2" = Ok g)
  ∨ resolveAccess (Some Fixture.customer2) Fixture.db BALE "b2"
    = HTTPException 401 "Authentication required"
  ∨ resolveAccess (Some Fixture.customer2) Fixture.db BALE "b2"
    = HTTPException 403 "You do not have access to this bale"
  ∨ resolveAccess (Some Fixture.customer2) Fixture.db BALE "b2"
    = HTTPException 404 "Bale not found".
Proof.
  apply (guard_outcomes (Some Fixture.customer2) Fixture.db BALE "b2").
  by apply (bool_decide_eq_true_1 _); vm_compute.
Defined.

(** A guard returns the principal it was called for. *)
Lemma guard_returns_principal P db id :
  (∀ auth, requirePOAccess (Some P) db id = Ok auth → auth = P)
  ∧ (∀ auth g, requireContainerAccess (Some P) db id = Ok (auth, g) → auth = P)
  ∧ (∀ auth g, requireBaleAccess (Some P) db id = Ok (auth, g) → auth = P).
Proof.
  split_and!; intros auth; unfold_guards; cbn.
  all: repeat (match goal with
               | |- context [@lookup _ _ _ _ ?k ?m] => destruct (m !! k) eqn:?
               end; cbn; try done).
  all: repeat (case_match; try done).
  all: congruence.
Qed.

(** The ids a guard hands back on success: for a shipment the purchase order
    of its row; for a container the shipment of its row and the purchase
    order of that shipment (the live chain); for a bale the three columns
    stored on the bale. *)
Theorem grant_ids P db id :
  (∀ auth poId, requireShipmentAccess (Some P) db id = Ok (auth, poId) →
     auth = P ∧ shipmentPO db id = Some poId)
  ∧ (∀ auth g, requireContainerAccess (Some P) db id = Ok (auth, g) →
     auth = P
     ∧ (∃ k, Db.container db !! id = Some k
             ∧ ContainerGrant.shipmentId g = Container.shipmentId k)
     ∧ containerPO db id = Some (ContainerGrant.poId g))
  ∧ (∀ auth g, requireBaleAccess (Some P) db id = Ok (auth, g) →
     auth = P
     ∧ ∃ b, Db.bale db !! id = Some b
            ∧ BaleGrant.containerId g = Bale.containerId b
            ∧ BaleGrant.shipmentId g = Bale.shipmentId b
            ∧ BaleGrant.poId g = Bale.poId b).
Proof.
  split_and!; intros auth g; unfold_guards; cbn.
  all: repeat (match goal with
               | |- context [@lookup _ _ _ _ ?k ?m] => destruct (m !! k) eqn:?
               end; cbn; try done).
  all: repeat (case_match; try done).
  all: intros [= <- <-]; cbn; split_and!; eauto.
Qed.

Lemma grant_ids_witness :
  shipmentPO Fixture.db "s1" = Some "po1"
  ∧ containerPO Fixture.db "k1" = Some "po1"
  ∧ ∃ b, Db.bale Fixture.db !! "b2" = Some b ∧ "po2" = Bale.poId b.
Proof.
  split_and!.
  - apply (proj1 (grant_ids Fixture.inspector Fixture.db "s1") Fixture.inspector).
    vm_compute. reflexivity.
  - apply (proj1 (proj2 (grant_ids Fixture.inspector Fixture.db "k1"))
             Fixture.inspector (ContainerGrant.mk "s1" "po1")).
    vm_compute. reflexivity.
  - destruct (proj2 (proj2 (grant_ids Fixture.inspector Fixture.db "b2"))
                Fixture.inspector (BaleGrant.mk "k1" "s2" "po2"))
      as (_ & b & Hb & _ & _ & Hpo); [vm_compute; reflexivity|].
    exists b. done.
Defined.

(** [requireSameCompanyUser] returns exactly when the target user exists in
    the principal's company; a user that does not exist and a user of
    another company get the same 404. *)
Theorem same_company_user P db (targetUserId : string) :
  requireSameCompanyUser (Some P) db targetUserId =
    if bool_decide (User.companyId <$> Db.user db !! targetUserId
                    = Some (AuthPayload.companyId P))
    then Ok P
    else HTTPException 404 "User not found".
Proof.
  unfold requireSameCompanyUser, requireAuth, getAuth, strictEq; cbn.
  destruct (Db.user db !! targetUserId) as [user|]; cbn; [|done].
  repeat case_bool_decide; simplify_eq/=; try done. congruence.
Qed.

(** Access follows the hierarchy.  A shipment is accessible exactly when its
    purchase order is, a container exactly when its shipment is, and a bale
    whose stored [poId] is the purchase order of its chain exactly when its
    container is. *)
Theorem access_follows_hierarchy P db :
  (∀ id s, Db.shipment db !! id = Some s →
     allowed (resolveAccess (Some P) db SHIPMENT id)
     ↔ allowed (resolveAccess (Some P) db PURCHASE_ORDER (Shipment.poId s)))
  ∧ (∀ id k, Db.container db !! id = Some k →
     allowed (resolveAccess (Some P) db CONTAINER id)
     ↔ allowed (resolveAccess (Some P) db SHIPMENT (Container.shipmentId k)))
  ∧ (∀ id b, Db.bale db !! id = Some b →
     containerPO db (Bale.containerId b) = Some (Bale.poId b) →
     allowed (resolveAccess (Some P) db BALE id)
     ↔ allowed (resolveAccess (Some P) db CONTAINER (Bale.containerId b))).
Proof.
  unfold allowed. split_and!.
  - intros id s Hs. unfold_guards; cbn. rewrite Hs; cbn.
    destruct (Db.purchaseOrder db !! Shipment.poId s) as [po|]; cbn.
    2: { split; intros [? ?]; done. }
    destruct (_ !== _); cbn; [split; intros [? ?]; done|].
    destruct (isCustomerOrSupplier P); cbn; [|split; eauto].
    case_bool_decide; cbn; split; intros [? ?]; try done; eauto.
  - intros id k Hk. unfold_guards; cbn. rewrite Hk; cbn.
    destruct (Db.shipment db !! Container.shipmentId k) as [s|]; cbn.
    2: { split; intros [? ?]; done. }
    destruct (Db.purchaseOrder db !! Shipment.poId s) as [po|]; cbn.
    2: { split; intros [? ?]; done. }
    destruct (_ !== _); cbn; [split; intros [? ?]; done|].
    destruct (isCustomerOrSupplier P); cbn; [|split; eauto].
    case_bool_decide; cbn; split; intros [? ?]; try done; eauto.
  - intros id b Hb Hchain. unfold_guards; cbn. rewrite Hb; cbn.
    destruct (Db.container db !! Bale.containerId b) as [k|]; cbn in *; [|done].
    destruct (Db.shipment db !! Container.shipmentId k) as [s|]; cbn in *; [|done].
    injection Hchain as Hchain. rewrite Hchain.
    destruct (Db.purchaseOrder db !! Bale.poId b) as [po|]; cbn.
    2: { split; intros [? ?]; done. }
    destruct (_ !== _); cbn; [split; intros [? ?]; done|].
    destruct (isCustomerOrSupplier P); cbn; [|split; eauto].
    case_bool_decide; cbn; split; intros [? ?]; try done; eauto.
Qed.

Lemma access_follows_hierarchy_witness :
  allowed (resolveAccess (Some Fixture.customer2) Fixture.db BALE "b1")
  ↔ allowed (resolveAccess (Some Fixture.customer2) Fixture.db CONTAINER "k1").
Proof.
  apply (proj2 (proj2 (access_follows_hierarchy Fixture.customer2 Fixture.db))
           "b1" (Bale.mk "po1" "s1" "k1" "insp1" 1 Fixture.inspection));
    vm_compute; reflexivity.
Defined.

(** Adding assignments never takes access away. *)
Theorem more_assignments_never_revoke P db e id a a' :
  a ⊆ a' →
  allowed (resolveAccess (Some P) (withAssignments a db) e id) →
  allowed (resolveAccess (Some P) (withAssignments a' db) e id).
Proof.
  intros Hsub [g Hok].
  assert (∀ a0, resolveAccess (Some P) (withAssignments a0 (withAssignments a db)) e id
                = resolveAccess (Some P) (withAssignments a0 db) e id) as Hsame by done.
  destruct (decision_cases P (withAssignments a db) e id)
    as [[_ H] | [(_ & _ & H) | [(? & _ & _ & _ & H) | (poId & g' & _ & _ & _ & H)]]];
    try congruence.
  pose proof (H a) as Ha. pose proof (H a') as Ha'.
  rewrite Hsame in Ha, Ha'. rewrite Hok in Ha. rewrite Ha'.
  destruct (isCustomerOrSupplier P); cbn in *; [|by eexists].
  destruct (decide ((poId, AuthPayload.userId P) ∈ a)) as [Hin|Hnin].
  - apply Hsub in Hin. rewrite bool_decide_eq_true_2 by done. by eexists.
  - by rewrite bool_decide_eq_false_2 in Ha.
Qed.

Lemma more_assignments_never_revoke_witness :
  allowed (resolveAccess (Some Fixture.customer1)
             (withAssignments {[ ("po2", "cust1"); ("po9", "cust1") ]} Fixture.db)
             SHIPMENT "s2").
Proof.
  apply (more_assignments_never_revoke Fixture.customer1 Fixture.db SHIPMENT "s2"
           {[ ("po2", "cust1") ]}).
  - set_solver.
  - eexists. vm_compute. reflexivity.
Defined.

End GuardFacts.

(** ** More about the bale routes *)

Section RouteFacts.

Implicit Types (P : AuthPayload.t) (db : Db.t) (q : BaleQuery.t) (c : Context).

(* The guards stay folded when a route is simplified. *)
#[local] Arguments requirePOAccess : simpl never.
#[local] Arguments requireContainerAccess : simpl never.
#[local] Arguments requireBaleAccess : simpl never.
#[local] Arguments requireRole : simpl never.

#[local] Instance byBaleNumber_total : Total byBaleNumber.
Proof. intros x y. unfold byBaleNumber. lia. Qed.

#[local] Instance byBaleNumber_trans : Transitive byBaleNumber.
Proof. intros x y z. unfold byBaleNumber. lia. Qed.

#[local] Instance rowOrder_total tie : Total (rowOrder tie).
Proof. intros x y. unfold rowOrder. lia. Qed.

#[local] Instance rowOrder_trans tie : Transitive (rowOrder tie).
Proof. intros x y z. unfold rowOrder. lia. Qed.

(** However the database orders equal numbers, its order is ascending in the
    bale number. *)
Lemma rowOrder_byBaleNumber tie rows :
  StronglySorted (rowOrder tie) rows → StronglySorted byBaleNumber rows.
Proof.
  induction 1 as [|x l _ IH Hall]; constructor; [done|].
  eapply Forall_impl; [exact Hall|].
  intros y. unfold rowOrder, byBaleNumber. lia.
Qed.

Lemma prismaTake_sorted {T : Type} (R : relation T) (n : Z) (rows : list T) :
  StronglySorted R rows → StronglySorted R (prismaTake n rows).
Proof.
  intros Hs. unfold prismaTake. case_bool_decide.
  - rewrite <- (take_drop (Z.to_nat n) rows) in Hs.
    by apply StronglySorted_app_1_l in Hs.
  - rewrite <- (take_drop (length rows - Z.to_nat (- n)) rows) in Hs.
    by apply StronglySorted_app_1_r in Hs.
Qed.

Lemma prismaTake_length {T : Type} (n : Z) (rows : list T) :
  (length (prismaTake n rows) ≤ Z.abs_nat n)%nat.
Proof.
  unfold prismaTake. case_bool_decide.
  - rewrite length_take. lia.
  - rewrite length_drop. lia.
Qed.

Lemma prismaTake_NoDup {T : Type} (n : Z) (rows : list T) :
  NoDup rows → NoDup (prismaTake n rows).
Proof.
  intros Hnd. unfold prismaTake. case_bool_decide.
  - exact (sublist_NoDup _ _ Hnd (sublist_take _ _)).
  - exact (sublist_NoDup _ _ Hnd (sublist_drop _ _)).
Qed.

(** What a 200 of the list route came from. *)
Lemma listBales_ok takeFits tie c db q rows :
  listBales takeFits tie c db q = Json 200 rows →
  ∃ P n, c = Some P
    ∧ parseInt (orElse (BaleQuery.limit q) "100") = Some n
    ∧ findManyBales takeFits tie db (balesWhere P q) (Some n) = Ok rows
    ∧ (truthy (BaleQuery.containerId q) = true →
       allowed (requireContainerAccess c db (default "" (BaleQuery.containerId q)))).
Proof.
  unfold listBales, tryCatch. destruct c as [P|]; [|done].
  destruct (truthy (BaleQuery.containerId q)) eqn:Hc.
  - destruct (requireContainerAccess (Some P) db
                (default "" (BaleQuery.containerId q))) as [r| |] eqn:Hguard;
      cbn; try done.
    destruct (parseInt _) as [n|]; cbn; [|done].
    destruct (takeFits n) eqn:Hfits; cbn; [|done].
    intros [= <-]. exists P, n. split_and!; try done.
    + cbn. by rewrite Hfits.
    + intros _. by exists r.
  - cbn. destruct (parseInt _) as [n|]; cbn; [|done].
    destruct (takeFits n) eqn:Hfits; cbn; [|done].
    intros [= <-]. exists P, n. split_and!; try done.
    cbn. by rewrite Hfits.
Qed.

(** A 200 of the list route lists rows of the bale table, each once, in
    ascending bale number, and no more than the absolute value of the limit
    (100 when none is given), whichever integers Prisma accepts as [take]
    and however the database orders bales of equal number. *)
Theorem list_sorted_and_bounded takeFits tie c db q rows :
  listBales takeFits tie c db q = Json 200 rows →
  StronglySorted byBaleNumber rows
  ∧ NoDup rows
  ∧ (∀ row, row ∈ rows → Db.bale db !! row.1 = Some row.2)
  ∧ ∃ n, parseInt (orElse (BaleQuery.limit q) "100") = Some n
         ∧ (length rows ≤ Z.abs_nat n)%nat.
Proof.
  intros (P & n & -> & Hn & Hfind & _)%listBales_ok.
  unfold findManyBales in Hfind. destruct (takeFits n); [|done].
  injection Hfind as <-.
  split_and!.
  - apply prismaTake_sorted, (rowOrder_byBaleNumber tie),
      StronglySorted_merge_sort; apply _.
  - apply prismaTake_NoDup. rewrite merge_sort_Permutation.
    apply NoDup_filter, NoDup_map_to_list.
  - intros [id b] Hin. apply prismaTake_subseteq in Hin.
    rewrite merge_sort_Permutation in Hin.
    apply list_elem_of_filter in Hin as [_ Hin].
    by apply elem_of_map_to_list in Hin.
  - exists n. split; [done|]. apply prismaTake_length.
Qed.

Lemma list_sorted_and_bounded_witness :
  StronglySorted byBaleNumber
    [("b1", Bale.mk "po1" "s1" "k1" "insp1" 1 Fixture.inspection);
     ("b2", Bale.mk "po2" "s2" "k1" "insp1" 2 Fixture.inspection)]
  ∧ ∃ n, parseInt (orElse (Some "2") "100") = Some n ∧ (2 ≤ Z.abs_nat n)%nat.
Proof.
  destruct (list_sorted_and_bounded Fixture.int64 Fixture.sameRank
              (Some Fixture.inspector) Fixture.db
              (BaleQuery.mk (Some "k1") None None None (Some "2"))
              [("b1", Bale.mk "po1" "s1" "k1" "insp1" 1 Fixture.inspection);
               ("b2", Bale.mk "po2" "s2" "k1" "insp1" 2 Fixture.inspection)])
    as (Hsorted & _ & _ & Hlen); [vm_compute; reflexivity | done].
Defined.

(** With a containerId the list route answers 200 only to a principal the
    container guard allows, and then every bale listed lies in that
    container, matches the other filters and belongs to the principal's
    company. *)
Theorem list_by_container_is_guarded takeFits tie P db q rows :
  truthy (BaleQuery.containerId q) = true →
  listBales takeFits tie (Some P) db q = Json 200 rows →
  allowed (requireContainerAccess (Some P) db (default "" (BaleQuery.containerId q)))
  ∧ ∀ row, row ∈ rows →
      Some (Bale.containerId row.2) = BaleQuery.containerId q
      ∧ matchesFilter q row.2 = true
      ∧ baleCompany db row.2 = Some (AuthPayload.companyId P).
Proof.
  intros Hc (P' & n & [= <-] & _ & Hfind & Hguard)%listBales_ok.
  specialize (Hguard Hc). split; [done|]. intros row Hin.
  pose proof (findManyBales_where _ _ _ _ _ _ _ Hfind Hin) as Hw.
  assert (BaleWhere.companyId (balesWhere P q) = None) as Hnone.
  { unfold balesWhere; cbn. by rewrite Hc. }
  rewrite whereMatches_unscoped in Hw by done.
  assert (Some (Bale.containerId row.2) = BaleQuery.containerId q) as Hk.
  { unfold matchesFilter, whenSet in Hw. rewrite Hc in Hw.
    destruct (BaleQuery.containerId q) as [k|]; [|done]. cbn in Hw.
    rewrite !andb_true_iff in Hw. destruct Hw as (((Hk & _) & _) & _).
    apply bool_decide_eq_true_1 in Hk. by rewrite Hk. }
  split_and!; try done.
  destruct Hguard as [[auth g] Hok]. rewrite <- Hk in Hok.
  change (default "" (Some ?x)) with x in Hok.
  assert (resolveAccess (Some P) db CONTAINER (Bale.containerId row.2)
          = Ok (GrantContainer auth g)) as Hres.
  { unfold resolveAccess. by rewrite Hok. }
  destruct (decision_cases P db CONTAINER (Bale.containerId row.2))
    as [[_ H] | [(_ & _ & H) | [(? & _ & _ & _ & H) | (poId & g' & _ & Hroot & _ & _)]]];
    try congruence.
  unfold rootCompany, chainPO, containerPO, shipmentPO in Hroot.
  unfold baleCompany. revert Hroot.
  destruct (Db.container db !! _) as [k|]; cbn; [|done].
  destruct (Db.shipment db !! _) as [s|]; cbn; done.
Qed.

Lemma list_by_container_is_guarded_witness :
  allowed (requireContainerAccess (Some Fixture.inspector) Fixture.db "k1")
  ∧ ∀ row, row ∈ [("b1", Bale.mk "po1" "s1" "k1" "insp1" 1 Fixture.inspection)] →
      Some (Bale.containerId row.2) = Some "k1"
      ∧ matchesFilter (BaleQuery.mk (Some "k1") None None None (Some "1")) row.2 = true
      ∧ baleCompany Fixture.db row.2 = Some "acme".
Proof.
  apply (list_by_container_is_guarded Fixture.int64 Fixture.sameRank
           Fixture.inspector Fixture.db
           (BaleQuery.mk (Some "k1") None None None (Some "1")));
    vm_compute; reflexivity.
Defined.

(** What the create route does, by cases: either it answers 201, and then
    the body parsed, the caller may create bales, the container guard allowed
    and the parsed row was inserted under the generated id; or it leaves the
    tables as they were and answers something else. *)
Lemma postBale_cases constraintError newId c db body r db' :
  postBale constraintError newId c db body = (r, db') →
  (∃ P g row,
      c = Some P ∧ canCreateBales P = true
      ∧ createBaleSchema body = Some row
      ∧ requireContainerAccess (Some P) db (Bale.containerId row) = Ok (P, g)
      ∧ constraintError db row = None
      ∧ r = Json 201 (newId db, row)
      ∧ db' = withBales (<[newId db := row]> (Db.bale db)) db)
  ∨ (db' = db ∧ ∀ id row, r ≠ Json 201 (id, row)).
Proof.
  unfold postBale. destruct (createBaleSchema body) as [data|]; [|by intros [= <- <-]; right].
  unfold tryCatch, baleCreate. destruct c as [P|]; cbn; [|by intros [= <- <-]; right].
  destruct (canCreateBales P) eqn:Hcan; cbn; [|by intros [= <- <-]; right].
  destruct (requireContainerAccess (Some P) db (Bale.containerId data))
    as [[auth g]| |] eqn:Hguard; cbn.
  - destruct (constraintError db data) eqn:Hce; cbn.
    + case_bool_decide; intros [= <- <-]; by right.
    + intros [= <- <-]. left. exists P, g, data.
      assert (auth = P) as ->.
      { exact (proj1 (proj2 (guard_returns_principal P db _)) _ _ Hguard). }
      by split_and!.
  - intros [= <- <-]; by right.
  - case_bool_decide; intros [= <- <-]; by right.
Qed.

(** A create that does not answer 201 leaves every table as it was. *)
Theorem create_failure_changes_nothing constraintError newId c db body r db' :
  postBale constraintError newId c db body = (r, db') →
  (∀ id row, r ≠ Json 201 (id, row)) →
  db' = db.
Proof.
  intros [(P & g & row & _ & _ & _ & _ & _ & -> & _) | [-> _]]%postBale_cases Hr;
    [|done].
  by destruct (Hr (newId db) row).
Qed.

Lemma create_failure_changes_nothing_witness :
  (postBale Fixture.strictSchema Fixture.freshId (Some Fixture.customer1) Fixture.db
     Fixture.mismatchedBody).2 = Fixture.db.
Proof.
  apply (create_failure_changes_nothing Fixture.strictSchema Fixture.freshId
           (Some Fixture.customer1) Fixture.db Fixture.mismatchedBody
           (JsonError 403
              "Access denied. Only inspectors and supervisors can create bales."
              "FORBIDDEN")).
  - vm_compute. reflexivity.
  - intros id row. discriminate.
Defined.

(** A 201 of the create route: the caller is an INSPECTOR or SUPERVISOR, the
    container named in the body has the caller's company at the root of its
    chain, and exactly the parsed row was written, under the generated id;
    the other tables are untouched. *)
Theorem create_writes_one_bale_in_own_company
    constraintError newId P db body id row db' :
  postBale constraintError newId (Some P) db body = (Json 201 (id, row), db') →
  canCreateBales P = true
  ∧ rootCompany db CONTAINER (Bale.containerId row) = Some (AuthPayload.companyId P)
  ∧ createBaleSchema body = Some row
  ∧ id = newId db
  ∧ db' = withBales (<[id := row]> (Db.bale db)) db.
Proof.
  intros [(P' & g & row' & [= <-] & Hcan & Hrow & Hguard & _ & [= -> ->] & ->)
         | [_ Hr]]%postBale_cases.
  2: { by destruct (Hr id row). }
  split_and!; try done.
  apply (ok_rooted P db CONTAINER _ (GrantContainer P g)).
  unfold resolveAccess. by rewrite Hguard.
Qed.

Lemma create_writes_one_bale_in_own_company_witness :
  rootCompany Fixture.db CONTAINER "k1" = Some "acme".
Proof.
  destruct (postBale Fixture.strictSchema Fixture.freshId (Some Fixture.inspector)
              Fixture.db Fixture.mismatchedBody) as [r db'] eqn:Hpost.
  assert (∃ row, r = Json 201 ("b-new", row) ∧ Bale.containerId row = "k1")
    as (row & -> & <-).
  { vm_compute in Hpost. injection Hpost as <- _. eexists. split; reflexivity. }
  by destruct (create_writes_one_bale_in_own_company _ _ _ _ _ _ _ _ Hpost)
    as (_ & ? & _).
Defined.

(** Create, then read: the principal that got the 201 passes the bale guard
    for the new id, and the single-bale route returns the row just written. *)
Theorem create_then_read constraintError newId P db body id row db' :
  postBale constraintError newId (Some P) db body = (Json 201 (id, row), db') →
  allowed (requireBaleAccess (Some P) db' id)
  ∧ ∃ chain, getBale (Some P) db' id = Json 200 (id, (row, chain)).
Proof.
  intros [(P' & g & row' & [= <-] & Hcan & Hrow & Hguard & _ & [= -> <-] & ->)
         | [_ Hr]]%postBale_cases.
  2: { by destruct (Hr id row). }
  apply creator_not_restricted in Hcan.
  assert (∃ g', requireBaleAccess (Some P)
                  (withBales (<[newId db := row]> (Db.bale db)) db) (newId db)
                = Ok (P, g')) as [g' Hbale].
  { revert Hguard.
    unfold requireBaleAccess, requireContainerAccess, findBale, requireAuth; cbn.
    rewrite lookup_insert_eq; cbn.
    change (findContainer (withBales ?b db) ?k) with (findContainer db k).
    destruct (findContainer db (Bale.containerId row)) as [[k s]|]; cbn; [|done].
    destruct s as [[s po]|]; cbn; [|done].
    destruct po as [po|]; cbn; [|done].
    destruct (_ !== _); [done|]. rewrite Hcan. eauto. }
  split; [by eexists|].
  unfold getBale, tryCatch. rewrite Hbale; cbn.
  unfold findBale; cbn. rewrite lookup_insert_eq; cbn. eauto.
Qed.

Lemma create_then_read_witness :
  allowed (requireBaleAccess (Some Fixture.inspector)
             (postBale Fixture.strictSchema Fixture.freshId (Some Fixture.inspector)
                Fixture.db Fixture.mismatchedBody).2 "b-new").
Proof.
  destruct (postBale Fixture.strictSchema Fixture.freshId (Some Fixture.inspector)
              Fixture.db Fixture.mismatchedBody) as [r db'] eqn:Hpost.
  assert (∃ row, r = Json 201 ("b-new", row)) as (row & ->).
  { vm_compute in Hpost. injection Hpost as <- _. by eexists. }
  by destruct (create_then_read _ _ _ _ _ _ _ _ Hpost) as [? _].
Defined.

(** What [createBaleSchema] lets through: a positive bale number, a positive
    weight, a moisture between 0 and 100 when one is given, a decision that
    is ACCEPT or REJECT, and non-empty display id, colour, stems, wetness and
    grade. *)
Theorem created_rows_are_valid body row :
  createBaleSchema body = Some row →
  0 < Bale.baleNumber row
  ∧ (0 < Inspection.weightKg (Bale.inspection row))%Q
  ∧ (∀ m, Inspection.moisturePct (Bale.inspection row) = Some m →
       (0 <= m)%Q ∧ (m <= 100)%Q)
  ∧ (Inspection.decision (Bale.inspection row) = "ACCEPT"
     ∨ Inspection.decision (Bale.inspection row) = "REJECT")
  ∧ Inspection.baleIdDisplay (Bale.inspection row) ≠ ""
  ∧ Inspection.color (Bale.inspection row) ≠ ""
  ∧ Inspection.stems (Bale.inspection row) ≠ ""
  ∧ Inspection.wetness (Bale.inspection row) ≠ ""
  ∧ Inspection.grade (Bale.inspection row) ≠ "".
Proof.
  unfold createBaleSchema, min1, includes, strictEq.
  destruct (asInt _) as [n|]; cbn; [|done].
  destruct (_ && _) eqn:Hok; [|done]. intros [= <-]; cbn.
  rewrite !andb_true_iff, !negb_true_iff, !bool_decide_eq_true,
    !bool_decide_eq_false in Hok.
  destruct Hok as ((((((((Hn & Hid) & Hw) & Hm) & Hc) & Hs) & Hwet) & Hg) & Hd).
  split_and!; try done.
  - by apply Qltb_spec in Hw.
  - intros m Hsome. rewrite Hsome in Hm. cbn in Hm.
    apply andb_true_iff in Hm as [H0 H100].
    by rewrite !Qle_bool_iff in H0, H100.
  - rewrite !elem_of_cons, elem_of_nil in Hd. tauto.
Qed.

Lemma created_rows_are_valid_witness :
  ∃ row, createBaleSchema Fixture.mismatchedBody = Some row
         ∧ 0 < Bale.baleNumber row.
Proof.
  destruct (createBaleSchema Fixture.mismatchedBody) as [row|] eqn:Hrow.
  - exists row. split; [done|].
    by destruct (created_rows_are_valid _ _ Hrow) as [? _].
  - vm_compute in Hrow. discriminate.
Defined.

(** No decision that [handleSave] of the bale form produces is accepted by
    the create route: the form maps ACCEPT to PASS and REJECT to FAIL and
    leaves anything else as it is, the schema takes only ACCEPT and REJECT.
    Such a body is answered 400 and nothing is written. *)
Theorem mapped_decision_is_refused
    constraintError newId c db body (decision : string) :
  CreateBaleBody.decision body = backendDecision decision →
  postBale constraintError newId c db body = (Invalid, db).
Proof.
  intros Hd. unfold postBale.
  assert (createBaleSchema body = None) as ->; [|done].
  unfold createBaleSchema. destruct (asInt _); cbn; [|done].
  assert (includes ["ACCEPT"; "REJECT"] (CreateBaleBody.decision body) = false)
    as ->; [|by rewrite !andb_false_r].
  rewrite Hd. unfold includes, backendDecision, strictEq.
  apply bool_decide_eq_false_2. rewrite !elem_of_cons, elem_of_nil.
  repeat case_bool_decide; intros [? | [? | []]]; congruence.
Qed.

Lemma mapped_decision_is_refused_witness :
  postBale Fixture.strictSchema Fixture.freshId (Some Fixture.inspector) Fixture.db
    (CreateBaleBody.mk "po1" "s1" "k1" "insp1" 3 "B-003" 25 (Some 12%Q)
       "GREEN" "LOW" "DRY" None None None "A" "PASS" None None None None)
  = (Invalid, Fixture.db).
Proof. apply (mapped_decision_is_refused _ _ _ _ _ "ACCEPT"). reflexivity. Defined.

Lemma bale_guard_found c db id r :
  requireBaleAccess c db id = Ok r → is_Some (findBale db id).
Proof.
  unfold requireBaleAccess, requireAuth. destruct c as [P|]; cbn; [|done].
  destruct (findBale db id); [eauto | done].
Qed.

(** The single-bale route answers as the bale guard decides: 200 with the
    stored row and its chain exactly when the guard allows, the guard's own
    exception when it throws; its own 404 answer is never given. *)
Theorem get_follows_guard c db id :
  (∀ bale, getBale c db id = Json 200 (id, bale)
     ↔ allowed (requireBaleAccess c db id) ∧ findBale db id = Some bale)
  ∧ (∀ status message, getBale c db id = Rethrown status message
     ↔ requireBaleAccess c db id = HTTPException status message)
  ∧ getBale c db id ≠ JsonError 404 "Bale not found" "NOT_FOUND".
Proof.
  unfold getBale, tryCatch, allowed.
  destruct (requireBaleAccess c db id) as [r| |] eqn:Hguard; cbn.
  - destruct (bale_guard_found _ _ _ _ Hguard) as [bale ->].
    split_and!; try done.
    + intros bale'. split; [intros [= <-]; eauto | by intros [_ [= <-]]].
  - split_and!; try done.
    + intros bale. split; [done | by intros [[? ?] _]].
    + intros st m. split; by intros [= <- <-].
  - split_and!; try done.
    intros bale. split; [done | by intros [[? ?] _]].
Qed.

(** Updating and deleting a bale ask for the role first: whoever is not a
    SUPERVISOR gets the 403 of [requireRole] and nothing changes, whether
    the bale exists or not and whichever company it belongs to. *)
Theorem bale_writes_need_supervisor updateError deleteError P db id body :
  AuthPayload.role P ≠ "SUPERVISOR" →
  updateBaleSchema body = true →
  putBale updateError (Some P) db id body
    = (Rethrown 403 "Access denied. Required roles: SUPERVISOR", db)
  ∧ deleteBale deleteError (Some P) db id
    = (Failed (Rethrown 403 "Access denied. Required roles: SUPERVISOR"), db).
Proof.
  intros Hrole Hbody. unfold putBale, deleteBale, tryCatch. rewrite Hbody; cbn.
  assert (requireRole (Some P) ["SUPERVISOR"]
          = HTTPException 403 "Access denied. Required roles: SUPERVISOR") as ->.
  { unfold requireRole, requireAuth, includes; cbn.
    rewrite bool_decide_eq_false_2; [done|].
    rewrite elem_of_cons, elem_of_nil. tauto. }
  done.
Qed.

Lemma bale_writes_need_supervisor_witness :
  putBale (λ _ _ _, None) (Some Fixture.inspector) Fixture.db "b1"
    (UpdateBaleBody.mk None None None None None None None None (Some "B")
       None None None None None None)
    = (Rethrown 403 "Access denied. Required roles: SUPERVISOR", Fixture.db)
  ∧ deleteBale (λ _ _, None) (Some Fixture.inspector) Fixture.db "b1"
    = (Failed (Rethrown 403 "Access denied. Required roles: SUPERVISOR"), Fixture.db).
Proof.
  apply (bale_writes_need_supervisor (λ _ _ _, None) (λ _ _, None) Fixture.inspector);
    [vm_compute; discriminate | reflexivity].
Defined.

(** The guards read a bale only through its three reference columns. *)
Lemma access_same_after_bale_change db (bales : gmap string Bale.t) :
  (∀ x, (λ b, (Bale.containerId b, Bale.shipmentId b, Bale.poId b)) <$> bales !! x
        = (λ b, (Bale.containerId b, Bale.shipmentId b, Bale.poId b)) <$> Db.bale db !! x) →
  ∀ c e x, resolveAccess c (withBales bales db) e x = resolveAccess c db e x.
Proof.
  intros Hsame c e x. destruct e; try reflexivity.
  unfold resolveAccess. f_equal.
  unfold requireBaleAccess, findBale. destruct (requireAuth c) as [P| |]; cbn; try done.
  specialize (Hsame x).
  destruct (bales !! x) as [b'|], (Db.bale db !! x) as [b|]; cbn in *; try done.
  injection Hsame as Hk Hs Hp. rewrite Hk, Hs, Hp.
  change (findContainer (withBales bales db) ?k) with (findContainer db k).
  change (findAssignment (withBales bales db)) with (findAssignment db).
  done.
Qed.

(** A successful update rewrites the one row from the body and leaves its
    reference columns and number alone; no access decision, for any caller
    and any entity, is changed by it. *)
Theorem update_keeps_access updateError c db id body id' row db' :
  putBale updateError c db id body = (Json 200 (id', row), db') →
  (∃ old, Db.bale db !! id = Some old ∧ row = applyUpdate body old
          ∧ Bale.containerId row = Bale.containerId old
          ∧ Bale.shipmentId row = Bale.shipmentId old
          ∧ Bale.poId row = Bale.poId old
          ∧ Bale.baleNumber row = Bale.baleNumber old)
  ∧ id' = id
  ∧ db' = withBales (<[id := row]> (Db.bale db)) db
  ∧ ∀ c' e x, resolveAccess c' db' e x = resolveAccess c' db e x.
Proof.
  unfold putBale, tryCatch, baleUpdate.
  destruct (updateBaleSchema body); cbn; [|done].
  destruct (requireRole c ["SUPERVISOR"]) as [?| |]; cbn; try done.
  2: { by case_bool_decide. }
  destruct (requireBaleAccess c db id) as [?| |]; cbn; try done.
  2: { by case_bool_decide. }
  destruct (Db.bale db !! id) as [old|] eqn:Hold; cbn.
  2: { by case_bool_decide. }
  destruct (updateError db id body); cbn.
  { by case_bool_decide. }
  intros [= <- <- <-]. split_and!; try done.
  - by exists old.
  - apply access_same_after_bale_change. intros x.
    destruct (decide (x = id)) as [->|Hne].
    + by rewrite lookup_insert_eq, Hold.
    + by rewrite lookup_insert_ne.
Qed.

Lemma update_keeps_access_witness :
  resolveAccess (Some Fixture.customer2)
    (putBale (λ _ _ _, None) (Some (AuthPayload.mk "sup1" "acme" "SUPERVISOR"))
       Fixture.db "b1"
       (UpdateBaleBody.mk None None None None None None None None (Some "B")
          None None None None None None)).2 BALE "b1"
  = resolveAccess (Some Fixture.customer2) Fixture.db BALE "b1".
Proof.
  destruct (putBale (λ _ _ _, None) (Some (AuthPayload.mk "sup1" "acme" "SUPERVISOR"))
              Fixture.db "b1"
              (UpdateBaleBody.mk None None None None None None None None (Some "B")
                 None None None None None None)) as [r db'] eqn:Hput.
  assert (∃ row, r = Json 200 ("b1", row)) as [row ->].
  { vm_compute in Hput. injection Hput as <- _. by eexists. }
  destruct (update_keeps_access _ _ _ _ _ _ _ _ Hput) as (_ & _ & _ & Hsame).
  apply Hsame.
Defined.

(** A successful delete: the caller is a SUPERVISOR of the company the bale
    belongs to; the row is gone, so the bale guard answers 404 to everybody;
    every other access decision is as before. *)
Theorem delete_removes_the_bale deleteError P db id db' :
  deleteBale deleteError (Some P) db id = (NoContent, db') →
  isSupervisor P = true
  ∧ rootCompany db BALE id = Some (AuthPayload.companyId P)
  ∧ db' = withBales (delete id (Db.bale db)) db
  ∧ (∀ Q, resolveAccess (Some Q) db' BALE id = HTTPException 404 "Bale not found")
  ∧ (∀ c e x, (e = BALE → x ≠ id) →
       resolveAccess c db' e x = resolveAccess c db e x).
Proof.
  unfold deleteBale, tryCatch, baleDelete.
  destruct (requireRole (Some P) ["SUPERVISOR"]) as [?| |] eqn:Hrole; cbn; try done.
  2: { by case_bool_decide. }
  destruct (requireBaleAccess (Some P) db id) as [[auth g]| |] eqn:Hguard; cbn; try done.
  2: { by case_bool_decide. }
  destruct (Db.bale db !! id) as [old|] eqn:Hold; cbn.
  2: { by case_bool_decide. }
  destruct (deleteError db id); cbn.
  { by case_bool_decide. }
  intros [= <-]. split_and!; try done.
  - revert Hrole. unfold requireRole, requireAuth, includes, isSupervisor, strictEq; cbn.
    case_bool_decide as Hin; cbn; [|done]. intros _.
    rewrite elem_of_cons, elem_of_nil in Hin. apply bool_decide_eq_true_2. tauto.
  - assert (rootCompany db BALE id = Some (AuthPayload.companyId P)) as Hroot.
    { apply (ok_rooted P db BALE id (GrantBale auth g)).
      unfold resolveAccess. by rewrite Hguard. }
    unfold rootCompany, chainPO in Hroot. by rewrite Hold in Hroot.
  - intros Q.
    refine (absent_not_found Q (withBales (delete id (Db.bale db)) db) BALE id _).
    unfold entityExists; cbn.
    apply bool_decide_eq_false_2. rewrite lookup_delete_eq. by intros [? ?].
  - intros c e x Hx. destruct e; try reflexivity.
    unfold resolveAccess. f_equal.
    unfold requireBaleAccess, findBale. cbn.
    rewrite lookup_delete_ne by (intros ->; by apply Hx). done.
Qed.

Lemma delete_removes_the_bale_witness :
  isSupervisor (AuthPayload.mk "sup1" "acme" "SUPERVISOR") = true
  ∧ rootCompany Fixture.db BALE "b1" = Some "acme".
Proof.
  destruct (deleteBale (λ _ _, None) (Some (AuthPayload.mk "sup1" "acme" "SUPERVISOR"))
              Fixture.db "b1") as [r db'] eqn:Hdel.
  assert (r = NoContent) as ->.
  { vm_compute in Hdel. by injection Hdel as <- _. }
  destruct (delete_removes_the_bale _ _ _ _ _ Hdel) as (? & ? & _). done.
Defined.

Lemma elem_of_distinctFrom (seen ids : list string) (x : string) :
  x ∈ distinctFrom seen ids ↔ x ∈ ids ∧ x ∉ seen.
Proof.
  revert seen. induction ids as [|y ids IH]; intros seen; cbn.
  - rewrite elem_of_nil. tauto.
  - case_bool_decide as Hy.
    + rewrite IH, elem_of_cons. split; [tauto|]. intros [[-> | ?] ?]; tauto.
    + rewrite !elem_of_cons, IH, elem_of_cons.
      destruct (decide (x = y)) as [->|]; tauto.
Qed.

Lemma requireEachContainer_ok c db (ids : list string) :
  requireEachContainer c db ids = Ok () →
  ∀ k, k ∈ ids → allowed (requireContainerAccess c db k).
Proof.
  induction ids as [|id ids IH]; cbn; intros Hok k Hin.
  - by apply elem_of_nil in Hin.
  - destruct (requireContainerAccess c db id) as [r| |] eqn:Hguard; cbn in Hok; try done.
    apply elem_of_cons in Hin as [-> | Hin]; [by exists r | by apply IH].
Qed.

(** The bulk create writes nothing, and does not answer 201, as soon as one
    container named in the batch is not accessible to the caller: every
    distinct container is checked before the first insert. *)
Theorem bulk_checks_every_container createAll c db bodies bales k :
  createBulkBalesSchema bodies = Some bales →
  k ∈ (Bale.containerId <$> bales) →
  ¬ allowed (requireContainerAccess c db k) →
  (postBulkBales createAll c db bodies).2 = db
  ∧ ∀ n rows, (postBulkBales createAll c db bodies).1 ≠ Json 201 (n, rows).
Proof.
  intros Hparse Hk Hdenied. unfold postBulkBales, tryCatch. rewrite Hparse.
  destruct (requireAuth c) as [P| |]; cbn.
  2, 3: unfold bulkError; try case_bool_decide; (split; [done | discriminate]).
  destruct (canCreateBales P); cbn; [|split; [done | discriminate]].
  destruct (requireEachContainer c db (distinct (Bale.containerId <$> bales)))
    as [[]| |] eqn:Hall; cbn.
  - destruct Hdenied. apply (requireEachContainer_ok _ _ _ Hall).
    apply elem_of_distinctFrom. split; [done | apply not_elem_of_nil].
  - split; [done | discriminate].
  - unfold bulkError. case_bool_decide; (split; [done | discriminate]).
Qed.

Lemma bulk_checks_every_container_witness :
  (postBulkBales (λ db _, (Ok [], db)) (Some Fixture.outsider) Fixture.db
     [Fixture.mismatchedBody]).2 = Fixture.db.
Proof.
  destruct (createBulkBalesSchema [Fixture.mismatchedBody]) as [bales|] eqn:Hparse.
  2: { vm_compute in Hparse. discriminate. }
  refine (proj1 (bulk_checks_every_container _ (Some Fixture.outsider) Fixture.db
                   [Fixture.mismatchedBody] bales "k1" Hparse _ _)).
  - vm_compute in Hparse. injection Hparse as <-. apply list_elem_of_here.
  - intros [r Hr]. vm_compute in Hr. discriminate.
Defined.

(** Without a verified principal every route answers with the 401 of
    [requireAuth] and writes nothing (a body the schema refuses is answered
    400 before that). *)
Theorem unauthenticated_is_401 db :
  (∀ e id, resolveAccess None db e id = HTTPException 401 "Authentication required")
  ∧ (∀ takeFits tie q,
       listBales takeFits tie None db q = Rethrown 401 "Authentication required")
  ∧ (∀ id, getBale None db id = Rethrown 401 "Authentication required")
  ∧ (∀ constraintError newId body, is_Some (createBaleSchema body) →
       postBale constraintError newId None db body
       = (Rethrown 401 "Authentication required", db))
  ∧ (∀ createAll bodies, is_Some (createBulkBalesSchema bodies) →
       postBulkBales createAll None db bodies
       = (Rethrown 401 "Authentication required", db))
  ∧ (∀ updateError id body, updateBaleSchema body = true →
       putBale updateError None db id body
       = (Rethrown 401 "Authentication required", db))
  ∧ (∀ deleteError id,
       deleteBale deleteError None db id
       = (Failed (Rethrown 401 "Authentication required"), db))
  ∧ (∀ poId userId,
       listPOAssignments None db poId userId = Rethrown 401 "Authentication required")
  ∧ (∀ assignmentError poId userId,
       postPOAssignment assignmentError None db poId userId
       = (Rethrown 401 "Authentication required", db)).
Proof.
  split_and!; try done.
  - by intros [].
  - intros ce nid body [row Hrow]. unfold postBale. by rewrite Hrow.
  - intros createAll bodies [rows Hrows]. unfold postBulkBales. by rewrite Hrows.
  - intros ue id body Hbody. unfold putBale. by rewrite Hbody.
Qed.

Lemma unauthenticated_is_401_witness :
  postBale Fixture.strictSchema Fixture.freshId None Fixture.db Fixture.mismatchedBody
  = (Rethrown 401 "Authentication required", Fixture.db).
Proof.
  apply (proj1 (proj2 (proj2 (proj2 (unauthenticated_is_401 Fixture.db))))).
  vm_compute. eauto.
Defined.

Lemma supervisor_role_ok c P :
  requireRole c ["SUPERVISOR"] = Ok P → c = Some P ∧ isSupervisor P = true.
Proof.
  unfold requireRole, requireAuth, includes, isSupervisor, strictEq.
  destruct c as [P'|]; cbn; [|done].
  case_bool_decide as Hin; cbn; [|done]. intros [= <-]. split; [done|].
  rewrite elem_of_cons, elem_of_nil in Hin. apply bool_decide_eq_true_2. tauto.
Qed.

(** The list of PO assignments is given to a SUPERVISOR only, and every
    assignment it lists is for a purchase order of the caller's company,
    with or without the poId filter; the filters given are respected. *)
Theorem po_assignments_list_scoped c db (poId userId : option string) rows :
  listPOAssignments c db poId userId = Json 200 rows →
  ∃ P, c = Some P ∧ isSupervisor P = true
    ∧ ∀ a, a ∈ rows →
        a ∈ Db.pOUserAssignment db
        ∧ PurchaseOrder.companyId <$> Db.purchaseOrder db !! a.1
          = Some (AuthPayload.companyId P)
        ∧ (truthy poId = true → Some a.1 = poId)
        ∧ (truthy userId = true → Some a.2 = userId).
Proof.
  unfold listPOAssignments, tryCatch.
  destruct (requireRole c ["SUPERVISOR"]) as [P| |] eqn:Hrole; cbn; try done.
  apply supervisor_role_ok in Hrole as [-> Hsup].
  destruct (truthy poId) eqn:Hpo.
  - destruct (requirePOAccess (Some P) db (default "" poId)) as [auth| |] eqn:Hguard;
      cbn; try done.
    intros [= <-]. exists P. split_and!; try done.
    intros a [[Hp Hu] Hin]%elem_of_filter. rewrite Hpo in Hp.
    split_and!; try done.
    + assert (rootCompany db PURCHASE_ORDER a.1 = Some (AuthPayload.companyId P))
        as Hroot.
      { apply (ok_rooted P db PURCHASE_ORDER a.1 (GrantPO auth)).
        unfold resolveAccess. rewrite <- Hp in Hguard. cbn in Hguard.
        by rewrite Hguard. }
      revert Hroot. unfold rootCompany, chainPO.
      destruct (Db.purchaseOrder db !! a.1) as [po|] eqn:Hrow; cbn; [|done].
      by rewrite Hrow.
    + intros Hut. by rewrite Hut in Hu.
  - cbn. intros [= <-]. exists P. split_and!; try done.
    intros a [[Hp Hu] Hin]%elem_of_filter. rewrite Hpo in Hp.
    split_and!; try done.
    intros Hut. by rewrite Hut in Hu.
Qed.

Lemma po_assignments_list_scoped_witness :
  ∃ P, Some (AuthPayload.mk "sup1" "acme" "SUPERVISOR") = Some P
    ∧ isSupervisor P = true
    ∧ ∀ a, a ∈ filter (assignmentMatches Fixture.db
                         (AuthPayload.mk "sup1" "acme" "SUPERVISOR") None (Some "cust1"))
                 (Db.pOUserAssignment Fixture.db) →
        a ∈ Db.pOUserAssignment Fixture.db
        ∧ PurchaseOrder.companyId <$> Db.purchaseOrder Fixture.db !! a.1
          = Some (AuthPayload.companyId P)
        ∧ (truthy None = true → Some a.1 = None)
        ∧ (truthy (Some "cust1") = true → Some a.2 = Some "cust1").
Proof.
  apply (po_assignments_list_scoped (Some (AuthPayload.mk "sup1" "acme" "SUPERVISOR"))
           Fixture.db None (Some "cust1")).
  reflexivity.
Defined.

(** What the grant route does, by cases. *)
Lemma postPOAssignment_cases assignmentError c db (poId userId : string) r db' :
  postPOAssignment assignmentError c db poId userId = (r, db') →
  (∃ P, c = Some P ∧ isSupervisor P = true
        ∧ requirePOAccess (Some P) db poId = Ok P
        ∧ ((poId, userId) ∉ Db.pOUserAssignment db)
        ∧ r = Json 201 (poId, userId)
        ∧ db' = withAssignments ({[ (poId, userId) ]} ∪ Db.pOUserAssignment db) db)
  ∨ (db' = db ∧ ∀ a, r ≠ Json 201 a).
Proof.
  unfold postPOAssignment, tryCatch, assignmentCreate.
  destruct (requireRole c ["SUPERVISOR"]) as [P| |] eqn:Hrole; cbn.
  2: { intros [= <- <-]; by right. }
  2: { case_bool_decide; intros [= <- <-]; by right. }
  apply supervisor_role_ok in Hrole as [-> Hsup].
  destruct (requirePOAccess (Some P) db poId) as [auth| |] eqn:Hguard; cbn.
  2: { intros [= <- <-]; by right. }
  2: { case_bool_decide; intros [= <- <-]; by right. }
  case_bool_decide as Hin; cbn.
  { intros [= <- <-]; by right. }
  destruct (assignmentError db (poId, userId)); cbn.
  { case_bool_decide; intros [= <- <-]; by right. }
  intros [= <- <-]. left. exists P.
  rewrite (proj1 (guard_returns_principal P db poId) _ Hguard) in Hguard.
  by split_and!.
Qed.

(** Grant, then access: after a 201 of the grant route for (poId, userId),
    every principal with that userId in the granting supervisor's company
    passes the purchase-order guard for poId, whatever its role; the grant
    itself needs a SUPERVISOR of the purchase order's company; and nobody
    loses access by it. *)
Theorem grant_then_access assignmentError P db (poId userId : string) a db' :
  postPOAssignment assignmentError (Some P) db poId userId = (Json 201 a, db') →
  isSupervisor P = true
  ∧ rootCompany db PURCHASE_ORDER poId = Some (AuthPayload.companyId P)
  ∧ (∀ Q, AuthPayload.userId Q = userId →
          AuthPayload.companyId Q = AuthPayload.companyId P →
          requirePOAccess (Some Q) db' poId = Ok Q)
  ∧ (∀ Q e id, allowed (resolveAccess (Some Q) db e id) →
               allowed (resolveAccess (Some Q) db' e id)).
Proof.
  intros [(P' & [= <-] & Hsup & Hguard & Hnew & _ & ->) | [_ Hr]]%postPOAssignment_cases.
  2: { by destruct (Hr a). }
  assert (rootCompany db PURCHASE_ORDER poId = Some (AuthPayload.companyId P)) as Hroot.
  { apply (ok_rooted P db PURCHASE_ORDER poId (GrantPO P)).
    unfold resolveAccess. by rewrite Hguard. }
  split_and!; try done.
  - intros Q <- Hco.
    unfold rootCompany, chainPO in Hroot.
    unfold requirePOAccess, requireAuth, findAssignment; cbn.
    destruct (Db.purchaseOrder db !! poId) as [po|] eqn:Hrow; cbn in *; [|done].
    rewrite Hrow in Hroot. injection Hroot as ->. rewrite Hco.
    unfold strictEq at 1. rewrite bool_decide_eq_true_2 by done. cbn.
    destruct (isCustomerOrSupplier Q); [|done].
    rewrite bool_decide_eq_true_2; [done|]. set_solver.
  - intros Q e id [g Hok]. unfold allowed.
    destruct (decision_cases Q db e id)
      as [[_ H] | [(_ & _ & H) | [(? & _ & _ & _ & H) | (po & g' & _ & _ & _ & H)]]];
      try congruence.
    pose proof (H (Db.pOUserAssignment db)) as Hold.
    rewrite withAssignments_same, Hok in Hold. rewrite H.
    destruct (isCustomerOrSupplier Q); cbn in *; [|eauto].
    destruct (decide ((po, AuthPayload.userId Q) ∈ Db.pOUserAssignment db)) as [Hin|Hnin].
    + rewrite bool_decide_eq_true_2 by set_solver. eauto.
    + by rewrite bool_decide_eq_false_2 in Hold.
Qed.

Lemma grant_then_access_witness :
  requirePOAccess (Some Fixture.customer1)
    (postPOAssignment (λ _ _, None) (Some (AuthPayload.mk "sup1" "acme" "SUPERVISOR"))
       Fixture.db "po1" "cust1").2 "po1"
  = Ok Fixture.customer1.
Proof.
  destruct (postPOAssignment (λ _ _, None)
              (Some (AuthPayload.mk "sup1" "acme" "SUPERVISOR"))
              Fixture.db "po1" "cust1") as [r db'] eqn:Hpost.
  assert (r = Json 201 ("po1", "cust1")) as ->.
  { vm_compute in Hpost. by injection Hpost as <- _. }
  destruct (grant_then_access _ _ _ _ _ _ _ Hpost) as (_ & _ & Hgrant & _).
  by apply Hgrant.
Defined.

(** A grant that does not answer 201 leaves the assignments as they were; a
    pair that is already assigned is answered 409 when the caller is a
    SUPERVISOR with access to the purchase order. *)
Theorem grant_failure_changes_nothing assignmentError c db (poId userId : string) :
  ((∀ a, (postPOAssignment assignmentError c db poId userId).1 ≠ Json 201 a) →
     (postPOAssignment assignmentError c db poId userId).2 = db)
  ∧ (∀ P, c = Some P → isSupervisor P = true →
       allowed (requirePOAccess c db poId) →
       (poId, userId) ∈ Db.pOUserAssignment db →
       postPOAssignment assignmentError c db poId userId
       = (JsonError 409 "User already assigned to this PO" "DUPLICATE_ASSIGNMENT", db)).
Proof.
  split.
  - destruct (postPOAssignment assignmentError c db poId userId) as [r db'] eqn:Hpost.
    apply postPOAssignment_cases in Hpost
      as [(P & _ & _ & _ & _ & -> & _) | [-> _]]; [|done].
    intros Hr. by destruct (Hr (poId, userId)).
  - intros P -> Hsup [auth Hguard] Hin.
    unfold postPOAssignment, tryCatch, assignmentCreate. rewrite Hguard.
    assert (requireRole (Some P) ["SUPERVISOR"] = Ok P) as ->.
    { unfold requireRole, requireAuth, includes; cbn.
      apply bool_decide_eq_true_1 in Hsup. rewrite Hsup.
      by rewrite bool_decide_eq_true_2 by apply list_elem_of_here. }
    cbn. by rewrite bool_decide_eq_true_2.
Qed.

Lemma grant_failure_changes_nothing_witness :
  postPOAssignment (λ _ _, None) (Some (AuthPayload.mk "sup1" "acme" "SUPERVISOR"))
    Fixture.db "po2" "cust1"
  = (JsonError 409 "User already assigned to this PO" "DUPLICATE_ASSIGNMENT", Fixture.db).
Proof.
  apply (proj2 (grant_failure_changes_nothing (λ _ _, None)
                  (Some (AuthPayload.mk "sup1" "acme" "SUPERVISOR"))
                  Fixture.db "po2" "cust1")
           (AuthPayload.mk "sup1" "acme" "SUPERVISOR")).
  - reflexivity.
  - reflexivity.
  - eexists. vm_compute. reflexivity.
  - set_solver.
Defined.

End RouteFacts.
